(** * Pomodoro timer: the state machine of [src/app/page.tsx]

    The component [PomodoroTimer] keeps nine pieces of React state and
    changes them only through its event handlers and through the callback
    of the one-second interval.  This file embeds that state machine:
    every handler is a function on a record of the nine state variables,
    the interval callback is [onInterval], and the scheduler (the effect
    that arms the interval) is [tick].  The two display functions
    [formatTime] and [formatMinutes] are embedded as well.

    Numbers.  Every number the component stores is an integer (seconds
    or minutes), so a JavaScript number is modelled by [Z].  JavaScript
    computes with IEEE doubles, which agree with [Z] on [+], [-], [*],
    comparison and [Math.floor (x / 60)] while magnitudes stay within
    2^53.  [NaN], the only non-integer the code can meet (from
    [Number.parseInt]), is modelled by [None].  The settings field
    accepts any number of minutes, so durations above 2^53 seconds can
    be entered; there the parse, the product by 60 and [prev - 1] are
    rounded.  Module [Binary64] gives these computations with their
    rounding, [storedDuration64] and [nextTimeLeft64] are the two places
    of the component that use them, and the results that depend on the
    magnitude state their bound and the agreement with these.

    Strings.  A JavaScript string is a sequence of UTF-16 code units,
    modelled by [list N].

    Rendering.  React runs a handler to completion, applies the queued
    setter calls together and re-runs the effects whose dependencies
    changed before the next event.  An event is therefore one atomic
    transition, and the interval callback, re-armed by its effect after
    every change of [timeLeft], [durations], [mode] or [selectedTaskId],
    always reads the current values.  The updater passed to
    [setTimeLeft] by the callback is run once for each firing. *)

From Stdlib Require Import ZArith NArith List Bool Lia String Ascii.
Import ListNotations.
Local Open Scope Z_scope.

(** ** Strings *)

Definition jsstring := list N.

(** A literal of the source, all of whose characters are ASCII. *)
Definition lit (s : string) : jsstring :=
  List.map N_of_ascii (list_ascii_of_string s).

(** [a === b] on strings. *)
Fixpoint strictEq (a b : jsstring) : bool :=
  match a, b with
  | [], [] => true
  | x :: a', y :: b' => N.eqb x y && strictEq a' b'
  | _, _ => false
  end.

(** ** [Number.parseInt] with no radix argument (ECMA-262, 21.1.2.13) *)

Module Number.

(** WhiteSpace and LineTerminator code units, stripped from the start. *)
Definition isStrWhiteSpaceChar (c : N) : bool :=
  (N.eqb c 9 || N.eqb c 10 || N.eqb c 11 || N.eqb c 12 || N.eqb c 13
   || N.eqb c 32 || N.eqb c 160 || N.eqb c 5760
   || (N.leb 8192 c && N.leb c 8202)
   || N.eqb c 8232 || N.eqb c 8233 || N.eqb c 8239 || N.eqb c 8287
   || N.eqb c 12288 || N.eqb c 65279)%N.

Fixpoint trimStart (s : jsstring) : jsstring :=
  match s with
  | c :: r => if isStrWhiteSpaceChar c then trimStart r else s
  | [] => []
  end.

(** The value of a code unit read as a digit: 0-9, then a-z or A-Z for
    10 to 35. *)
Definition digitValue (c : N) : option Z :=
  if (N.leb 48 c && N.leb c 57)%N then Some (Z.of_N c - 48)
  else if (N.leb 97 c && N.leb c 122)%N then Some (Z.of_N c - 97 + 10)
  else if (N.leb 65 c && N.leb c 90)%N then Some (Z.of_N c - 65 + 10)
  else None.

(** The longest prefix of radix-[R] digits, read as a number; [acc] is
    the value of the digits read so far, [None] when there is none yet. *)
Fixpoint parseDigits (R : Z) (s : jsstring) (acc : option Z) : option Z :=
  match s with
  | [] => acc
  | c :: r =>
      match digitValue c with
      | Some v =>
          if v <? R
          then parseDigits R r
                 (Some (match acc with Some a => a * R + v | None => v end))
          else acc
      | None => acc
      end
  end.

(** [None] is NaN.  The result [-0] for an input such as "-0" is [Some 0]:
    the caller only tests it for truthiness.  The result is the integer
    the digits denote; JavaScript returns its binary64 value, which is
    the same up to 2^53 and is given by [Binary64.parseInt]. *)
Definition parseInt (s : jsstring) : option Z :=
  let S0 := trimStart s in
  let '(sign, S1) :=
    match S0 with
    | c :: r =>
        if N.eqb c 45 then (-1, r)
        else if N.eqb c 43 then (1, r)
        else (1, S0)
    | [] => (1, S0)
    end in
  let '(R, S2) :=
    match S1 with
    | c0 :: x :: r =>
        if (N.eqb c0 48 && (N.eqb x 120 || N.eqb x 88))%N
        then (16, r) else (10, S1)
    | _ => (10, S1)
    end in
  option_map (Z.mul sign) (parseDigits R S2 None).

End Number.

(** [x || 0] for a number [x]: NaN and zero are falsy. *)
Definition orZero (x : option Z) : Z :=
  match x with
  | Some n => if n =? 0 then 0 else n
  | None => 0
  end.

(** ** The numbers of JavaScript

    A JavaScript number is an IEEE 754 binary64 value.  The component
    meets only integers, the two infinities (from a very long digit
    string) and NaN.  Every integer of magnitude up to 2^53 is a
    binary64 value, and on those the operations of the component are
    exact; that is the range in which [Z] arithmetic stands for them in
    the state machine below.  Above 2^53 a result is rounded to the
    nearest value with 53 significant bits, ties going to the even
    one.  This module gives the two computations of the component with
    that rounding. *)

Module Binary64.

Inductive number : Type :=
  | NaN
  | Finite (z : Z)
  | PosInfinity
  | NegInfinity.

(** The nearest integer with at most 53 significant bits to [x >= 0],
    ties to even. *)
Definition roundNat (x : Z) : Z :=
  let e := Z.log2 x - 52 in
  if e <=? 0 then x
  else
    let q := x / 2 ^ e in
    let r := x mod 2 ^ e in
    let half := 2 ^ (e - 1) in
    let q' :=
      if r <? half then q
      else if half <? r then q + 1
      else if Z.even q then q else q + 1 in
    q' * 2 ^ e.

(** The binary64 value of an integer; past the largest finite value it
    is an infinity. *)
Definition round (x : Z) : number :=
  let m := roundNat (Z.abs x) in
  if 2 ^ 1024 <=? m
  then (if x <? 0 then NegInfinity else PosInfinity)
  else Finite (Z.sgn x * m).

(** [Number.parseInt(s)]: the integer read, as a binary64 value.  The
    digits are read exactly and the result rounded once, as the engines
    do; ECMA-262 also allows reading only twenty significant digits,
    which gives the same value for every input of at most twenty. *)
Definition parseInt (s : jsstring) : number :=
  match Number.parseInt s with
  | Some n => round n
  | None => NaN
  end.

(** [x || 0] *)
Definition orZero (x : number) : number :=
  match x with
  | NaN => Finite 0
  | _ => x
  end.

(** [Math.max(1, x)] *)
Definition max1 (x : number) : number :=
  match x with
  | NaN => NaN
  | Finite z => Finite (Z.max 1 z)
  | PosInfinity => PosInfinity
  | NegInfinity => Finite 1
  end.

(** [x * 60] *)
Definition mul60 (x : number) : number :=
  match x with
  | Finite z => round (z * 60)
  | _ => x
  end.

(** [x <= 1] *)
Definition le1 (x : number) : bool :=
  match x with
  | Finite z => z <=? 1
  | NegInfinity => true
  | NaN | PosInfinity => false
  end.

(** [x - 1] *)
Definition sub1 (x : number) : number :=
  match x with
  | Finite z => round (z - 1)
  | _ => x
  end.

End Binary64.

(** ** Data model *)

Inductive TimerMode : Type :=
  | focus
  | short_break
  | long_break.

Definition TimerMode_eq_dec (a b : TimerMode) : {a = b} + {a <> b}.
Proof. decide equality. Defined.

Record DailyTask : Type := mkTask {
  id : jsstring;
  name : jsstring;
  targetMinutes : Z;
  completedMinutes : Z
}.

(** [Record<TimerMode, number>]: one number per mode. *)
Record Durations : Type := mkDurations {
  d_focus : Z;
  d_short_break : Z;
  d_long_break : Z
}.

(** [d[m]] *)
Definition get (d : Durations) (m : TimerMode) : Z :=
  match m with
  | focus => d_focus d
  | short_break => d_short_break d
  | long_break => d_long_break d
  end.

(** [{ ...d, [m]: v }] *)
Definition set (d : Durations) (m : TimerMode) (v : Z) : Durations :=
  match m with
  | focus => mkDurations v (d_short_break d) (d_long_break d)
  | short_break => mkDurations (d_focus d) v (d_long_break d)
  | long_break => mkDurations (d_focus d) (d_short_break d) v
  end.

Definition DEFAULT_DURATIONS : Durations :=
  mkDurations (25 * 60) (5 * 60) (15 * 60).

Definition DEFAULT_TASKS : list DailyTask :=
  [ mkTask (lit "learning") (lit "Learning") 240 0;
    mkTask (lit "coding") (lit "Python Coding / DSA") 180 0;
    mkTask (lit "aptitude") (lit "Aptitude") 60 0 ].

(** The nine [useState] variables of the component. *)
Record State : Type := mkState {
  durations : Durations;
  showSettings : bool;
  tempDurations : Durations;
  mode : TimerMode;
  timeLeft : Z;
  isRunning : bool;
  isComplete : bool;
  dailyTasks : list DailyTask;
  selectedTaskId : jsstring
}.

(** The initial values passed to [useState]. *)
Definition init : State :=
  {| durations := DEFAULT_DURATIONS;
     showSettings := false;
     tempDurations := DEFAULT_DURATIONS;
     mode := focus;
     timeLeft := d_focus DEFAULT_DURATIONS;
     isRunning := false;
     isComplete := false;
     dailyTasks := DEFAULT_TASKS;
     selectedTaskId := lit "learning" |}.

(** ** State setters

    A handler reads the state variables of the render it was created in
    (its closure) and queues setter calls; each setter below replaces one
    variable.  In a handler [h s], values are read from [s] and the
    setters are chained. *)

Definition setDurations (v : Durations) (s : State) : State :=
  mkState v (showSettings s) (tempDurations s) (mode s) (timeLeft s)
    (isRunning s) (isComplete s) (dailyTasks s) (selectedTaskId s).

Definition setShowSettings (v : bool) (s : State) : State :=
  mkState (durations s) v (tempDurations s) (mode s) (timeLeft s)
    (isRunning s) (isComplete s) (dailyTasks s) (selectedTaskId s).

Definition setTempDurations (v : Durations) (s : State) : State :=
  mkState (durations s) (showSettings s) v (mode s) (timeLeft s)
    (isRunning s) (isComplete s) (dailyTasks s) (selectedTaskId s).

Definition setMode (v : TimerMode) (s : State) : State :=
  mkState (durations s) (showSettings s) (tempDurations s) v (timeLeft s)
    (isRunning s) (isComplete s) (dailyTasks s) (selectedTaskId s).

Definition setTimeLeft (v : Z) (s : State) : State :=
  mkState (durations s) (showSettings s) (tempDurations s) (mode s) v
    (isRunning s) (isComplete s) (dailyTasks s) (selectedTaskId s).

Definition setIsRunning (v : bool) (s : State) : State :=
  mkState (durations s) (showSettings s) (tempDurations s) (mode s)
    (timeLeft s) v (isComplete s) (dailyTasks s) (selectedTaskId s).

Definition setIsComplete (v : bool) (s : State) : State :=
  mkState (durations s) (showSettings s) (tempDurations s) (mode s)
    (timeLeft s) (isRunning s) v (dailyTasks s) (selectedTaskId s).

Definition setDailyTasks (v : list DailyTask) (s : State) : State :=
  mkState (durations s) (showSettings s) (tempDurations s) (mode s)
    (timeLeft s) (isRunning s) (isComplete s) v (selectedTaskId s).

Definition setSelectedTaskId (v : jsstring) (s : State) : State :=
  mkState (durations s) (showSettings s) (tempDurations s) (mode s)
    (timeLeft s) (isRunning s) (isComplete s) (dailyTasks s) v.

(** ** Event handlers *)

Definition handleModeChange (newMode : TimerMode) (s : State) : State :=
  setIsComplete false
    (setIsRunning false
       (setTimeLeft (get (durations s) newMode)
          (setMode newMode s))).

Definition handleStart (s : State) : State :=
  setIsComplete false (setIsRunning true s).

Definition handlePause (s : State) : State :=
  setIsRunning false s.

Definition handleReset (s : State) : State :=
  setIsComplete false
    (setIsRunning false
       (setTimeLeft (get (durations s) (mode s)) s)).

Definition handleSaveDurations (s : State) : State :=
  setIsComplete false
    (setIsRunning false
       (setTimeLeft (get (tempDurations s) (mode s))
          (setShowSettings false
             (setDurations (tempDurations s) s)))).

Definition handleResetDurations (s : State) : State :=
  setTempDurations DEFAULT_DURATIONS s.

Definition handleDurationChange (m : TimerMode) (value : jsstring)
    (s : State) : State :=
  let minutes := orZero (Number.parseInt value) in
  setTempDurations (set (tempDurations s) m (Z.max 1 minutes * 60)) s.

Definition handleResetDailyTasks (s : State) : State :=
  setDailyTasks DEFAULT_TASKS s.

(** The [onClick] of the settings button. *)
Definition toggleSettings (s : State) : State :=
  setTempDurations (durations s) (setShowSettings (negb (showSettings s)) s).

(** The first effect, [setTimeLeft(durations[mode])], which React runs
    after a render in which [durations] or [mode] changed. *)
Definition syncTimeLeft (s : State) : State :=
  setTimeLeft (get (durations s) (mode s)) s.

(** ** The countdown *)

(** The function mapped over the tasks on completion: the task whose id
    is the selected one gets [mins] more completed minutes. *)
Definition creditTask (sel : jsstring) (mins : Z) (task : DailyTask)
    : DailyTask :=
  if strictEq (id task) sel
  then mkTask (id task) (name task) (targetMinutes task)
         (completedMinutes task + mins)
  else task.

(** The callback of [setInterval].  The second component counts the calls
    of the crediting [setDailyTasks] made by this callback. *)
Definition onIntervalC (s : State) : State * nat :=
  if timeLeft s <=? 1 then
    (setTimeLeft 0
       (setDailyTasks
          (List.map
             (creditTask (selectedTaskId s) (get (durations s) (mode s) / 60))
             (dailyTasks s))
          (setIsComplete true (setIsRunning false s))),
     1%nat)
  else (setTimeLeft (timeLeft s - 1) s, 0%nat).

Definition onInterval (s : State) : State := fst (onIntervalC s).

(** The second effect arms the interval only under this condition, and
    clears it when any of its dependencies changes. *)
Definition armed (s : State) : bool :=
  isRunning s && (0 <? timeLeft s).

(** One second passes: the interval fires if it is armed. *)
Definition tickC (s : State) : State * nat :=
  if armed s then onIntervalC s else (s, 0%nat).

Definition tick (s : State) : State := fst (tickC s).

(** ** The transition system *)

Inductive Event : Type :=
  | ModeChange (m : TimerMode)
  | Start
  | Pause
  | Reset
  | SelectTask (taskId : jsstring)
  | ResetDailyTasks
  | ToggleSettings
  | DurationChange (m : TimerMode) (value : jsstring)
  | SaveDurations
  | ResetDurations
  | Tick.

(** What one event does, with the number of credits it issues.  The
    handlers that change [mode] or [durations] are followed by the first
    effect. *)
Definition stepC (e : Event) (s : State) : State * nat :=
  match e with
  | ModeChange m => (syncTimeLeft (handleModeChange m s), 0%nat)
  | Start => (handleStart s, 0%nat)
  | Pause => (handlePause s, 0%nat)
  | Reset => (handleReset s, 0%nat)
  | SelectTask i => (setSelectedTaskId i s, 0%nat)
  | ResetDailyTasks => (handleResetDailyTasks s, 0%nat)
  | ToggleSettings => (toggleSettings s, 0%nat)
  | DurationChange m v => (handleDurationChange m v s, 0%nat)
  | SaveDurations => (syncTimeLeft (handleSaveDurations s), 0%nat)
  | ResetDurations => (handleResetDurations s, 0%nat)
  | Tick => tickC s
  end.

Definition step (e : Event) (s : State) : State := fst (stepC e s).

Fixpoint run (es : list Event) (s : State) : State :=
  match es with
  | [] => s
  | e :: es' => run es' (step e s)
  end.

(** The number of credits issued along a run. *)
Fixpoint credits (es : list Event) (s : State) : nat :=
  match es with
  | [] => 0%nat
  | e :: es' => (snd (stepC e s) + credits es' (step e s))%nat
  end.

(** The number of steps of a run at which [timeLeft] goes from a positive
    value to zero. *)
Fixpoint zeroReached (es : list Event) (s : State) : nat :=
  match es with
  | [] => 0%nat
  | e :: es' =>
      Nat.add
        (if (0 <? timeLeft s) && (timeLeft (step e s) =? 0)
         then 1%nat else 0%nat)
        (zeroReached es' (step e s))
  end.

(** Which events the rendered page lets the user fire: the Start button
    is disabled while running, the Pause button while not running, the
    settings panel exists only while [showSettings], and a task button
    exists for each task of the ledger. *)
Definition enabled (e : Event) (s : State) : bool :=
  match e with
  | Start => negb (isRunning s)
  | Pause => isRunning s
  | DurationChange _ _ | SaveDurations | ResetDurations => showSettings s
  | SelectTask i => existsb (fun t => strictEq (id t) i) (dailyTasks s)
  | Tick => armed s
  | ModeChange _ | Reset | ResetDailyTasks | ToggleSettings => true
  end.

Fixpoint allEnabled (es : list Event) (s : State) : bool :=
  match es with
  | [] => true
  | e :: es' => enabled e s && allEnabled es' (step e s)
  end.

(** ** Predicates of the specification *)

(** A number of seconds that is a whole, positive number of minutes. *)
Definition WholeMinutes (v : Z) : Prop :=
  exists k : Z, 1 <= k /\ v = k * 60.

Definition TableOK (d : Durations) : Prop :=
  forall m : TimerMode, WholeMinutes (get d m).

(** The invariants the specification gives for the timer state. *)
Definition TimerInv (s : State) : Prop :=
  0 <= timeLeft s <= get (durations s) (mode s)
  /\ ~ (isRunning s = true /\ isComplete s = true).

(** The inductive invariant: the timer invariants together with the
    well-formedness of both duration tables. *)
Definition Inv (s : State) : Prop :=
  TableOK (durations s) /\ TableOK (tempDurations s) /\ TimerInv s.

Definition reachable (s : State) : Prop :=
  exists es : list Event, s = run es init.

(** The tick that ends a countdown: the interval is armed and the
    callback takes its [prev <= 1] branch. *)
Definition terminal (s : State) : Prop :=
  armed s = true /\ timeLeft s <= 1.

(** The events that load [timeLeft] from a duration table. *)
Definition reloads (e : Event) : bool :=
  match e with
  | ModeChange _ | Reset | SaveDurations => true
  | _ => false
  end.

(** [editDuration] as the specification words it: parse the input as a
    number of minutes, take 0 when it does not parse, clamp to at least 1
    and store [minutes * 60] for the mode in the pending table. *)
Definition editDuration (m : TimerMode) (rawInput : jsstring)
    (pending : Durations) : Durations :=
  let parsed :=
    match Number.parseInt rawInput with Some n => n | None => 0 end in
  let minutes := Z.max 1 parsed in
  set pending m (minutes * 60).

Definition asEdit (p : TimerMode * jsstring) : Event :=
  DurationChange (fst p) (snd p).

(** ** The display functions

    [n.toString()] for an integer [n]: its decimal digits, after a minus
    sign when it is negative.  This is the string JavaScript gives for
    every integer of magnitude up to 2^53; for larger numbers it prints
    only the digits that tell the binary64 value apart, and from 10^21
    on an exponent. *)

Definition digitChar (d : Z) : N := Z.to_N (48 + d).

(** The digits of [n >= 0], most significant first, put in front of
    [acc]; one unit of [fuel] is spent for each digit. *)
Fixpoint digitsAux (fuel : nat) (n : Z) (acc : jsstring) : jsstring :=
  match fuel with
  | O => acc
  | S f =>
      let acc' := digitChar (n mod 10) :: acc in
      if n <? 10 then acc' else digitsAux f (n / 10) acc'
  end.

Definition digitsOf (n : Z) : jsstring :=
  digitsAux (S (Z.to_nat (Z.log2 n))) n [].

Definition toString (n : Z) : jsstring :=
  if n <? 0 then 45%N :: digitsOf (- n) else digitsOf n.

(** [s.padStart(targetLength, padString)] *)
Definition padStart (targetLength : nat) (padString s : jsstring)
    : jsstring :=
  let len := List.length s in
  if (targetLength <=? len)%nat then s
  else
    match padString with
    | [] => s
    | _ =>
        firstn (targetLength - len)
          (List.concat (repeat padString (targetLength - len))) ++ s
    end.

(** [Math.floor(seconds / 60)] is [/] of [Z], and [%], whose result has
    the sign of the dividend, is [Z.rem]. *)
Definition formatTime (seconds : Z) : jsstring :=
  let mins := seconds / 60 in
  let secs := Z.rem seconds 60 in
  padStart 2 (lit "0") (toString mins)
  ++ lit ":" ++ padStart 2 (lit "0") (toString secs).

Definition formatMinutes (minutes : Z) : jsstring :=
  let hours := minutes / 60 in
  let mins := Z.rem minutes 60 in
  if 0 <? hours
  then toString hours ++ lit "h " ++ toString mins ++ lit "m"
  else toString mins ++ lit "m".

(** The [value] of the settings input of mode [m]. *)
Definition durationFieldValue (m : TimerMode) (s : State) : Z :=
  get (tempDurations s) m / 60.

(** ** Further notions used below *)

(** The number of ticks of a run at which the interval was armed, that
    is, at which its callback ran. *)
Fixpoint fired (es : list Event) (s : State) : nat :=
  match es with
  | [] => 0%nat
  | e :: es' =>
      Nat.add
        (match e with
         | Tick => if armed s then 1%nat else 0%nat
         | _ => 0%nat
         end)
        (fired es' (step e s))
  end.

(** The states the user can bring about: every event of the run was
    offered by the page when it happened. *)
Definition uiReachable (s : State) : Prop :=
  exists es : list Event, allEnabled es init = true /\ s = run es init.

(** What a credit never touches in a task. *)
Definition taskKey (t : DailyTask) : jsstring * jsstring * Z :=
  (id t, name t, targetMinutes t).

Definition totalCompleted (tasks : list DailyTask) : Z :=
  fold_right (fun t acc => completedMinutes t + acc) 0 tasks.

(** The code units "0" to "9". *)
Definition isDigitChar (c : N) : Prop :=
  exists d : Z, 0 <= d < 10 /\ c = digitChar d.

(** The input of the last edit of mode [m] in a list of edits. *)
Definition lastEdit (m : TimerMode) (edits : list (TimerMode * jsstring))
    : option jsstring :=
  option_map snd
    (find (fun p => if TimerMode_eq_dec (fst p) m then true else false)
       (rev edits)).

(** A code unit after which a decimal number read by [Number.parseInt]
    ends, and which cannot turn a leading "0" into a hexadecimal
    prefix. *)
Definition endsNumber (rest : jsstring) : bool :=
  match rest with
  | [] => true
  | c :: _ =>
      match Number.digitValue c with
      | Some v => (10 <=? v) && negb (N.eqb c 120) && negb (N.eqb c 88)
      | None => true
      end
  end.

(** ** The two computations of the component, in binary64

    What [Math.max(1, Number.parseInt(value) || 0) * 60] evaluates to in
    [handleDurationChange]. *)
Definition storedDuration64 (value : jsstring) : Binary64.number :=
  Binary64.mul60
    (Binary64.max1 (Binary64.orZero (Binary64.parseInt value))).

(** What the updater given to [setTimeLeft] by the interval callback
    returns for [prev]. *)
Definition nextTimeLeft64 (prev : Binary64.number) : Binary64.number :=
  if Binary64.le1 prev then Binary64.Finite 0 else Binary64.sub1 prev.

(** The largest number of minutes whose seconds stay within 2^53. *)
Definition maxExactMinutes : Z := 150119987579016.

(** An event is in the exact range when it is not an edit, or is an
    edit of at most [maxExactMinutes] minutes. *)
Definition exactEvent (e : Event) : bool :=
  match e with
  | DurationChange _ value =>
      orZero (Number.parseInt value) <=? maxExactMinutes
  | _ => true
  end.

(** The states reached by events of the exact range. *)
Definition exactReachable (s : State) : Prop :=
  exists es : list Event, forallb exactEvent es = true /\ s = run es init.

(** ** Basic facts *)

Lemma strictEq_true_iff (a b : jsstring) : strictEq a b = true <-> a = b.
Proof.
  revert b; induction a as [|x a IH]; intros [|y b]; simpl;
    try (split; [discriminate | congruence]); try tauto.
  rewrite andb_true_iff, N.eqb_eq, IH.
  split; [intros [-> ->]; reflexivity | intros H; inversion H; auto].
Qed.

Lemma strictEq_false_iff (a b : jsstring) : strictEq a b = false <-> a <> b.
Proof.
  rewrite <- strictEq_true_iff. destruct (strictEq a b); split; congruence.
Qed.

(** [Number.parseInt] on some inputs of the duration field. *)
Example parseInt_minus_five : Number.parseInt (lit "-5") = Some (-5).
Proof. reflexivity. Qed.

Example parseInt_letters : Number.parseInt (lit "abc") = None.
Proof. reflexivity. Qed.

Example parseInt_prefix : Number.parseInt (lit "  42.9px") = Some 42.
Proof. reflexivity. Qed.

Example parseInt_hex : Number.parseInt (lit "0x1F") = Some 31.
Proof. reflexivity. Qed.

Example parseInt_sign_only : Number.parseInt (lit "-") = None.
Proof. reflexivity. Qed.

Example parseInt_empty : Number.parseInt [] = None.
Proof. reflexivity. Qed.

Lemma get_set_same (d : Durations) (m : TimerMode) (v : Z) :
  get (set d m v) m = v.
Proof. destruct m; reflexivity. Qed.

Lemma get_set_other (d : Durations) (m m' : TimerMode) (v : Z) :
  m' <> m -> get (set d m v) m' = get d m'.
Proof. destruct m, m'; simpl; congruence. Qed.

Lemma orZero_spec (x : option Z) :
  orZero x = match x with Some n => n | None => 0 end.
Proof.
  destruct x as [n|]; simpl; [|reflexivity].
  destruct (Z.eqb_spec n 0); congruence.
Qed.

Lemma WholeMinutes_ge (v : Z) : WholeMinutes v -> 60 <= v.
Proof. intros (k & Hk & ->). lia. Qed.

Lemma WholeMinutes_clamp (n : Z) : WholeMinutes (Z.max 1 n * 60).
Proof. exists (Z.max 1 n). split; [lia | reflexivity]. Qed.

Lemma TableOK_default : TableOK DEFAULT_DURATIONS.
Proof.
  intros [| |]; simpl; [exists 25 | exists 5 | exists 15]; split;
    try lia; reflexivity.
Qed.

Lemma TableOK_set (d : Durations) (m : TimerMode) (v : Z) :
  TableOK d -> WholeMinutes v -> TableOK (set d m v).
Proof.
  intros Hd Hv m'. destruct (TimerMode_eq_dec m' m) as [->|Hne].
  - rewrite get_set_same. exact Hv.
  - rewrite get_set_other by exact Hne. apply Hd.
Qed.

(** The first effect changes nothing after the two handlers that can
    trigger it: they have already loaded [timeLeft] from the table the
    effect reads. *)
Lemma syncTimeLeft_handleModeChange (m : TimerMode) (s : State) :
  syncTimeLeft (handleModeChange m s) = handleModeChange m s.
Proof. reflexivity. Qed.

Lemma syncTimeLeft_handleSaveDurations (s : State) :
  syncTimeLeft (handleSaveDurations s) = handleSaveDurations s.
Proof. reflexivity. Qed.

Lemma run_app (es1 es2 : list Event) (s : State) :
  run (es1 ++ es2) s = run es2 (run es1 s).
Proof. revert s; induction es1 as [|e es1 IH]; intro s; simpl; auto. Qed.

Lemma reachable_init : reachable init.
Proof. exists []. reflexivity. Qed.


(** Induction over the reachable states. *)
Lemma reachable_ind' (P : State -> Prop) :
  P init ->
  (forall e s, reachable s -> P s -> P (step e s)) ->
  forall s, reachable s -> P s.
Proof.
  intros H0 Hstep s [es ->].
  induction es as [|e es IH] using rev_ind; [exact H0|].
  rewrite run_app. simpl. apply Hstep; [exists es; reflexivity | exact IH].
Qed.

(** *** The tick, case by case *)

Lemma armed_iff (s : State) :
  armed s = true <-> isRunning s = true /\ 0 < timeLeft s.
Proof. unfold armed. rewrite andb_true_iff, Z.ltb_lt. tauto. Qed.

Lemma tickC_unarmed (s : State) : armed s = false -> tickC s = (s, 0%nat).
Proof. unfold tickC. intros ->. reflexivity. Qed.

Lemma tickC_counting (s : State) :
  armed s = true -> 1 < timeLeft s ->
  tickC s = (setTimeLeft (timeLeft s - 1) s, 0%nat).
Proof.
  unfold tickC, onIntervalC. intros -> H.
  destruct (Z.leb_spec (timeLeft s) 1); [lia | reflexivity].
Qed.

Lemma tickC_terminal (s : State) :
  terminal s ->
  tickC s =
    (setTimeLeft 0
       (setDailyTasks
          (List.map
             (creditTask (selectedTaskId s) (get (durations s) (mode s) / 60))
             (dailyTasks s))
          (setIsComplete true (setIsRunning false s))),
     1%nat).
Proof.
  unfold tickC, onIntervalC. intros [-> H].
  destruct (Z.leb_spec (timeLeft s) 1); [reflexivity | lia].
Qed.

(** The three cases of a tick are exhaustive. *)
Lemma tick_cases (s : State) :
  armed s = false \/ (armed s = true /\ 1 < timeLeft s) \/ terminal s.
Proof.
  unfold terminal. destruct (armed s); [|auto].
  destruct (Z.le_gt_cases (timeLeft s) 1); [right; right | right; left];
    split; auto; lia.
Qed.

(** Case analysis on a tick of [s], rewriting [tickC s] everywhere by
    the equation of the case. *)
Ltac tick_case s Hu Ha Hgt Hterm :=
  destruct (tick_cases s) as [Hu | [[Ha Hgt] | Hterm]];
  [ rewrite (tickC_unarmed s Hu) in *
  | rewrite (tickC_counting s Ha Hgt) in *
  | rewrite (tickC_terminal s Hterm) in * ].

Lemma terminal_timeLeft (s : State) : terminal s -> timeLeft s = 1.
Proof. intros [Ha Hle]. apply armed_iff in Ha. lia. Qed.

(** *** The inductive invariant *)

Lemma Inv_init : Inv init.
Proof.
  repeat split; simpl; try apply TableOK_default; lia.
Qed.

Lemma Inv_tick (s : State) : Inv s -> Inv (tick s).
Proof.
  intros (Hd & Ht & (Hlo & Hhi) & Hrc). unfold tick.
  tick_case s Hu Ha Hgt Hterm.
  - repeat split; auto.
  - repeat split; simpl; auto; lia.
  - repeat split; simpl; auto.
    + lia.
    + specialize (Hd (mode s)). apply WholeMinutes_ge in Hd. lia.
    + intros [H _]; discriminate.
Qed.

Lemma Inv_step (e : Event) (s : State) : Inv s -> Inv (step e s).
Proof.
  destruct e; try apply Inv_tick;
    intros (Hd & Ht & (Hlo & Hhi) & Hrc);
    unfold Inv, TimerInv, step; simpl; repeat split; auto;
    try lia;
    try (intros [H1 H2]; discriminate);
    try (match goal with
         | |- 0 <= get ?d ?m => pose proof (WholeMinutes_ge _ (Hd m));
                                  pose proof (WholeMinutes_ge _ (Ht m)); lia
         end);
    try apply TableOK_default.
  apply TableOK_set; [exact Ht | apply WholeMinutes_clamp].
Qed.

Lemma Inv_reachable (s : State) : reachable s -> Inv s.
Proof.
  apply reachable_ind'; [exact Inv_init | intros e s' _; apply Inv_step].
Qed.

(** *** Runs of ticks *)

Lemma repeat_snoc (e : Event) (k : nat) :
  repeat e (S k) = repeat e k ++ [e].
Proof. induction k as [|k IH]; simpl in *; [reflexivity | now rewrite <- IH]. Qed.

Lemma run_ticks_S (k : nat) (s : State) :
  run (repeat Tick (S k)) s = tick (run (repeat Tick k) s).
Proof. rewrite repeat_snoc, run_app. reflexivity. Qed.

(** While more than [k] seconds are left, [k] ticks of a running timer
    only lower [timeLeft], by [k]. *)
Lemma run_ticks_counting (s : State) (k : nat) :
  isRunning s = true -> Z.of_nat k < timeLeft s ->
  run (repeat Tick k) s = setTimeLeft (timeLeft s - Z.of_nat k) s.
Proof.
  intros Hrun. induction k as [|k IH]; intros Hlt.
  - simpl. rewrite Z.sub_0_r. destruct s; reflexivity.
  - rewrite run_ticks_S, IH by lia. unfold tick.
    rewrite tickC_counting.
    + unfold setTimeLeft; simpl. f_equal; lia.
    + apply armed_iff. simpl. split; [exact Hrun | lia].
    + simpl. lia.
Qed.

(** A tick in a state with nothing left changes nothing, however often
    it is tried. *)
Lemma run_ticks_unarmed (s : State) (k : nat) :
  armed s = false -> run (repeat Tick k) s = s.
Proof.
  intros Hu. induction k as [|k IH]; [reflexivity|].
  rewrite run_ticks_S, IH. unfold tick. now rewrite tickC_unarmed.
Qed.

Lemma credits_ticks_unarmed (s : State) (k : nat) :
  armed s = false -> credits (repeat Tick k) s = 0%nat.
Proof.
  intros Hu. induction k as [|k IH]; [reflexivity|].
  simpl. unfold step. simpl. rewrite tickC_unarmed by exact Hu. exact IH.
Qed.

(** ** Binary64 against exact arithmetic *)

Lemma pow2_53 : 2 ^ 53 = 9007199254740992.
Proof. reflexivity. Qed.

Lemma roundNat_exact (x : Z) :
  0 <= x <= 2 ^ 53 -> Binary64.roundNat x = x.
Proof.
  rewrite pow2_53. intros H.
  destruct (Z.eq_dec x 9007199254740992) as [->|Hne]; [reflexivity|].
  unfold Binary64.roundNat.
  assert (Hl : Z.log2 x - 52 <= 0).
  { destruct (Z.eq_dec x 0) as [->|Hx]; [simpl; lia|].
    assert (Z.log2 x < 53); [|lia].
    apply Z.log2_lt_pow2; [lia|]. rewrite pow2_53. lia. }
  destruct (Z.leb_spec (Z.log2 x - 52) 0); [reflexivity | lia].
Qed.

Lemma roundNat_pos (x : Z) : 0 < x -> 0 < Binary64.roundNat x.
Proof.
  intros H. unfold Binary64.roundNat.
  destruct (Z.leb_spec (Z.log2 x - 52) 0) as [Hle|Hgt]; [exact H|].
  set (e := Z.log2 x - 52) in *.
  assert (Hp : 0 < 2 ^ e) by (apply Z.pow_pos_nonneg; lia).
  assert (Hq : 1 <= x / 2 ^ e).
  { apply Z.div_le_lower_bound; [exact Hp|].
    rewrite Z.mul_1_r.
    apply Z.le_trans with (2 ^ Z.log2 x);
      [apply Z.pow_le_mono_r; lia | apply Z.log2_spec; exact H]. }
  apply Z.mul_pos_pos; [|exact Hp].
  destruct (x mod 2 ^ e <? 2 ^ (e - 1)); [lia|].
  destruct (2 ^ (e - 1) <? x mod 2 ^ e); [lia|].
  destruct (Z.even (x / 2 ^ e)); lia.
Qed.

(** An integer of magnitude up to 2^53 is its own binary64 value. *)
Lemma round_exact (x : Z) :
  Z.abs x <= 2 ^ 53 -> Binary64.round x = Binary64.Finite x.
Proof.
  intros H. unfold Binary64.round.
  rewrite roundNat_exact by lia.
  assert (Hbig : 2 ^ 53 < 2 ^ 1024) by reflexivity.
  destruct (Z.leb_spec (2 ^ 1024) (Z.abs x)); [lia|].
  f_equal. destruct x; simpl; lia.
Qed.

(** A negative integer, however large, stays below 1. *)
Lemma max1_round_negative (x : Z) :
  x < 0 ->
  Binary64.max1 (Binary64.orZero (Binary64.round x)) = Binary64.Finite 1.
Proof.
  intros H. unfold Binary64.round.
  pose proof (roundNat_pos (Z.abs x) ltac:(lia)) as Hm.
  destruct (Z.leb_spec (2 ^ 1024) (Binary64.roundNat (Z.abs x))).
  - destruct (Z.ltb_spec x 0); [reflexivity | lia].
  - simpl. f_equal. rewrite Z.sgn_neg by exact H. lia.
Qed.

(** In the exact range the component stores what the state machine
    stores. *)
Lemma storedDuration64_exact (value : jsstring) :
  orZero (Number.parseInt value) <= maxExactMinutes ->
  storedDuration64 value
  = Binary64.Finite (Z.max 1 (orZero (Number.parseInt value)) * 60).
Proof.
  unfold storedDuration64, Binary64.parseInt, maxExactMinutes.
  destruct (Number.parseInt value) as [n|]; simpl; [|reflexivity].
  destruct (Z.eqb_spec n 0) as [->|Hn]; [reflexivity|].
  intros Hle. destruct (Z_lt_le_dec n 0) as [Hneg|Hpos].
  - rewrite max1_round_negative by exact Hneg.
    rewrite Z.max_l by lia. reflexivity.
  - rewrite round_exact by (rewrite pow2_53; lia). simpl.
    rewrite round_exact by (rewrite pow2_53; lia). reflexivity.
Qed.

Lemma nextTimeLeft64_exact (prev : Z) :
  prev <= 2 ^ 53 ->
  nextTimeLeft64 (Binary64.Finite prev)
  = Binary64.Finite (if prev <=? 1 then 0 else prev - 1).
Proof.
  intros H. unfold nextTimeLeft64. simpl.
  destruct (Z.leb_spec prev 1); [reflexivity|].
  simpl. apply round_exact. lia.
Qed.

(** Up to 2^53 an armed tick leaves the [timeLeft] the updater of the
    component returns. *)
Lemma tick_agrees_binary64 (s : State) :
  armed s = true -> timeLeft s <= 2 ^ 53 ->
  nextTimeLeft64 (Binary64.Finite (timeLeft s))
  = Binary64.Finite (timeLeft (tick s)).
Proof.
  intros Ha Hle. rewrite nextTimeLeft64_exact by exact Hle.
  unfold tick, tickC, onIntervalC. rewrite Ha.
  destruct (timeLeft s <=? 1); reflexivity.
Qed.

(** ** C1: which completions are credited *)

(** C1 (as stated, refuted).  Counterexample: from the initial state the
    user picks short-break mode, starts the timer and lets 299 seconds
    pass.  The 300th tick ends the short break and credits 5 minutes to
    the selected task "learning", although the mode is not focus. *)
Lemma C1_break_completion_credits :
  let es := [ModeChange short_break; Start] ++ repeat Tick 299 in
  let s := run es init in
  allEnabled es init = true
  /\ mode s = short_break
  /\ armed s = true
  /\ timeLeft s = 1
  /\ List.map completedMinutes (dailyTasks s) = [0; 0; 0]
  /\ timeLeft (tick s) = 0
  /\ isComplete (tick s) = true
  /\ List.map completedMinutes (dailyTasks (tick s)) = [5; 0; 0].
Proof. vm_compute. repeat split; reflexivity. Qed.

(** C1 (amended).  The terminal tick issues its credit in every mode,
    focus or break alike: when the countdown of mode [m] reaches zero,
    exactly one credit is issued, every task whose id is the selected id
    gains [floor (durations[m] / 60)] completed minutes and every other
    task is unchanged. *)
Theorem C1_completion_credits_in_every_mode (m : TimerMode) (s : State) :
  mode s = m ->
  terminal s ->
  snd (tickC s) = 1%nat
  /\ dailyTasks (tick s) =
       List.map
         (fun task =>
            if strictEq (id task) (selectedTaskId s)
            then mkTask (id task) (name task) (targetMinutes task)
                   (completedMinutes task + get (durations s) m / 60)
            else task)
         (dailyTasks s).
Proof.
  intros <- Hterm. unfold tick. rewrite tickC_terminal by exact Hterm.
  split; reflexivity.
Qed.

Lemma C1_completion_credits_in_every_mode_witness :
  let s := run ([ModeChange long_break; Start] ++ repeat Tick 899) init in
  List.map completedMinutes (dailyTasks (tick s)) = [15; 0; 0].
Proof.
  intro s.
  assert (Hm : mode s = long_break) by (vm_compute; reflexivity).
  assert (Ht : terminal s).
  { split; [vm_compute; reflexivity | vm_compute; discriminate]. }
  rewrite (proj2 (C1_completion_credits_in_every_mode long_break s Hm Ht)).
  vm_compute. reflexivity.
Defined.

(** ** C2: starting a finished timer *)

(** C2 (as stated, refuted).  Counterexample: the user sets the focus
    duration to one minute, saves, starts and lets the 60 seconds pass.
    In the finished state the Start button is enabled, and pressing it
    changes the state: [isRunning] becomes true and [isComplete] false. *)
Lemma C2_start_after_completion_changes_state :
  let es := [ToggleSettings; DurationChange focus (lit "1"); SaveDurations;
             Start] ++ repeat Tick 60 in
  let s := run es init in
  allEnabled es init = true
  /\ isComplete s = true
  /\ isRunning s = false
  /\ timeLeft s = 0
  /\ enabled Start s = true
  /\ isRunning (step Start s) = true
  /\ isComplete (step Start s) = false
  /\ step Start s <> s.
Proof.
  vm_compute. repeat split; try reflexivity. discriminate.
Qed.

(** C2 (amended).  In every state with [isComplete = true], start is not
    ignored: it sets [isRunning] to true and clears [isComplete], and it
    leaves [timeLeft], [mode] and every other state variable as they
    were; so the state after start differs from the state before, and
    running and complete do not coexist in it. *)
Theorem C2_start_clears_complete (s : State) :
  isComplete s = true ->
  let s' := step Start s in
  isRunning s' = true
  /\ isComplete s' = false
  /\ timeLeft s' = timeLeft s
  /\ mode s' = mode s
  /\ s' = setIsComplete false (setIsRunning true s)
  /\ s' <> s.
Proof.
  intros Hc. simpl. repeat split.
  intros Heq. apply (f_equal isComplete) in Heq. simpl in Heq. congruence.
Qed.

Lemma C2_start_clears_complete_witness :
  let s := setIsComplete true init in
  isComplete s = true /\ isRunning (step Start s) = true
  /\ isComplete (step Start s) = false.
Proof.
  intro s.
  pose proof (C2_start_clears_complete s eq_refl) as H.
  split; [reflexivity | split; [apply H | apply H]].
Defined.

(** ** C3: the countdown *)

(** C3 (as stated, refuted).  Counterexample: the user enters
    150119987579017 minutes for focus, saves and starts.  The active
    duration is [D = 9007199254741020] seconds, which the component
    stores exactly, and the timer is armed with [timeLeft = D]; but
    [prev - 1] at [prev = D] is [D] again in binary64, so the first tick
    does not lower [timeLeft]. *)
Lemma C3_tick_stalls_above_2_53 :
  let es := [ToggleSettings; DurationChange focus (lit "150119987579017");
             SaveDurations; ModeChange focus; Start] in
  let s0 := run es init in
  let D := get (durations s0) focus in
  allEnabled es init = true
  /\ D = 9007199254741020
  /\ storedDuration64 (lit "150119987579017") = Binary64.Finite D
  /\ armed s0 = true
  /\ timeLeft s0 = D
  /\ nextTimeLeft64 (Binary64.Finite (timeLeft s0)) = Binary64.Finite D.
Proof. vm_compute. repeat split; reflexivity. Qed.

(** C3 (amended).  Countdown exactness up to 2^53: after selecting mode
    [m], whose active duration is [D] with [1 <= D <= 2^53], and
    starting, each of the first [D - 1] ticks lowers [timeLeft] by
    exactly one and leaves the timer running and not complete; the
    [D]-th tick leaves [timeLeft = 0], [isRunning = false] and
    [isComplete = true]; and at each of these ticks the new [timeLeft]
    is the value the updater of the component returns in binary64. *)
Theorem C3_countdown_exact (m : TimerMode) (s : State) :
  let D := get (durations s) m in
  let s0 := step Start (step (ModeChange m) s) in
  1 <= D <= 2 ^ 53 ->
  (forall k : nat, Z.of_nat k < D ->
     let sk := run (repeat Tick k) s0 in
     timeLeft sk = D - Z.of_nat k
     /\ isRunning sk = true /\ isComplete sk = false)
  /\ (forall k : nat, Z.of_nat (S k) < D ->
        timeLeft (run (repeat Tick (S k)) s0)
        = timeLeft (run (repeat Tick k) s0) - 1)
  /\ (let sD := run (repeat Tick (Z.to_nat D)) s0 in
      timeLeft sD = 0 /\ isRunning sD = false /\ isComplete sD = true)
  /\ (forall k : nat, Z.of_nat k < D ->
        nextTimeLeft64
          (Binary64.Finite (timeLeft (run (repeat Tick k) s0)))
        = Binary64.Finite (timeLeft (run (repeat Tick (S k)) s0))).
Proof.
  intros D s0 HD.
  assert (Hrun : isRunning s0 = true) by reflexivity.
  assert (Htl : timeLeft s0 = D) by reflexivity.
  assert (Hk : forall k : nat, Z.of_nat k < D ->
            run (repeat Tick k) s0 = setTimeLeft (D - Z.of_nat k) s0).
  { intros k Hlt.
    rewrite run_ticks_counting by (rewrite ?Htl; assumption).
    rewrite Htl. reflexivity. }
  split; [|split; [|split]].
  - intros k Hlt. simpl. rewrite Hk by exact Hlt. repeat split.
  - intros k Hlt. rewrite !Hk by lia. simpl. lia.
  - replace (Z.to_nat D) with (S (Z.to_nat (D - 1))) by lia.
    rewrite run_ticks_S, Hk by lia. unfold tick.
    rewrite tickC_terminal.
    + repeat split.
    + split; [apply armed_iff|]; simpl; lia.
  - intros k Hlt. rewrite run_ticks_S. apply tick_agrees_binary64.
    + rewrite Hk by exact Hlt. apply armed_iff. simpl. lia.
    + rewrite Hk by exact Hlt. simpl. lia.
Qed.

Lemma C3_countdown_exact_witness :
  1 <= get (durations init) focus <= 2 ^ 53
  /\ timeLeft (run (repeat Tick 1500) (step Start (step (ModeChange focus) init)))
     = 0.
Proof.
  assert (H : 1 <= get (durations init) focus <= 2 ^ 53)
    by (split; vm_compute; discriminate).
  split; [exact H|].
  exact (proj1 (proj1 (proj2 (proj2 (C3_countdown_exact focus init H))))).
Defined.

(** ** C4: one credit for each countdown that reaches zero *)

(** Only three kinds of step can bring [timeLeft] to zero or issue a
    credit; under the invariant the two coincide at every step. *)
Lemma step_credit_iff_zero (e : Event) (s : State) :
  Inv s ->
  snd (stepC e s) =
    if (0 <? timeLeft s) && (timeLeft (step e s) =? 0) then 1%nat else 0%nat.
Proof.
  intros (Hd & Ht & (Hlo & Hhi) & _).
  assert (Hpos : forall v, 60 <= v -> (v =? 0) = false)
    by (intros v Hv; apply Z.eqb_neq; lia).
  assert (Hsame : (0 <? timeLeft s) && (timeLeft s =? 0) = false).
  { destruct (Z.ltb_spec 0 (timeLeft s)); [|reflexivity].
    simpl. apply Z.eqb_neq. lia. }
  destruct e; unfold step; simpl; rewrite ?Hsame; try reflexivity;
    try (rewrite Hpos, andb_false_r;
         [reflexivity | apply WholeMinutes_ge; auto]).
  tick_case s Hu Ha Hgt Hterm; simpl.
  - now rewrite Hsame.
  - replace (timeLeft s - 1 =? 0) with false
      by (symmetry; apply Z.eqb_neq; lia).
    now rewrite andb_false_r.
  - rewrite (terminal_timeLeft s Hterm). reflexivity.
Qed.

Lemma credits_eq_zeroReached (es : list Event) (s : State) :
  Inv s -> credits es s = zeroReached es s.
Proof.
  revert s. induction es as [|e es IH]; intros s HI; simpl; [reflexivity|].
  rewrite (step_credit_iff_zero e s HI), (IH _ (Inv_step e s HI)).
  reflexivity.
Qed.

Lemma stepC_not_tick (e : Event) (s : State) :
  e <> Tick -> snd (stepC e s) = 0%nat.
Proof. destruct e; intros H; try reflexivity. congruence. Qed.

Lemma tasks_changed_only_by_terminal_tick (e : Event) (s : State) :
  e <> ResetDailyTasks ->
  dailyTasks (step e s) <> dailyTasks s ->
  e = Tick /\ terminal s.
Proof.
  intros Hne Hch. destruct e; unfold step in Hch; simpl in Hch;
    try congruence.
  split; [reflexivity|].
  tick_case s Hu Ha Hgt Hterm; simpl in Hch; [congruence.. | exact Hterm].
Qed.

(** C4.  Exactly-once credit: along every sequence of events from the
    initial state the number of credits issued equals the number of times
    [timeLeft] has reached zero; a single event issues at most one
    credit, and only a tick can issue one; reset, mode selection and a
    duration save never change the tasks; and, the ledger reset apart, an
    event that changes the tasks is the terminal tick of a countdown. *)
Theorem C4_credit_exactly_once :
  (forall es : list Event, credits es init = zeroReached es init)
  /\ (forall e s, (snd (stepC e s) <= 1)%nat)
  /\ (forall e s, e <> Tick -> snd (stepC e s) = 0%nat)
  /\ (forall s, dailyTasks (step Reset s) = dailyTasks s)
  /\ (forall m s, dailyTasks (step (ModeChange m) s) = dailyTasks s)
  /\ (forall s, dailyTasks (step SaveDurations s) = dailyTasks s)
  /\ (forall e s,
        e <> ResetDailyTasks ->
        dailyTasks (step e s) <> dailyTasks s ->
        e = Tick /\ terminal s /\ snd (stepC e s) = 1%nat).
Proof.
  split; [|split; [|split; [|split; [|split; [|split]]]]];
    try reflexivity.
  - intros es. apply credits_eq_zeroReached, Inv_init.
  - intros e s. destruct e; simpl; try lia.
    unfold tickC, onIntervalC.
    destruct (armed s); simpl; [|lia].
    destruct (timeLeft s <=? 1); simpl; lia.
  - exact stepC_not_tick.
  - intros e s Hne Hch.
    destruct (tasks_changed_only_by_terminal_tick e s Hne Hch) as [-> Hterm].
    split; [reflexivity | split; [exact Hterm|]].
    change (snd (tickC s) = 1%nat). now rewrite tickC_terminal.
Qed.

Lemma C4_credit_exactly_once_witness :
  snd (stepC Reset init) = 0%nat
  /\ credits ([Start] ++ repeat Tick 1500 ++ [Start; Tick; Reset; Tick]) init
     = 1%nat.
Proof.
  destruct C4_credit_exactly_once as (Hcount & _ & Hnt & _).
  split.
  - apply Hnt. discriminate.
  - rewrite Hcount. vm_compute. reflexivity.
Defined.

(** ** C5: what a credit does to the ledger *)

Lemma creditTask_selected (sel : jsstring) (mins : Z) (t : DailyTask) :
  id t = sel ->
  creditTask sel mins t
  = mkTask (id t) (name t) (targetMinutes t) (completedMinutes t + mins).
Proof.
  intros H. unfold creditTask.
  now rewrite (proj2 (strictEq_true_iff _ _) H).
Qed.

Lemma creditTask_other (sel : jsstring) (mins : Z) (t : DailyTask) :
  id t <> sel -> creditTask sel mins t = t.
Proof.
  intros H. unfold creditTask.
  now rewrite (proj2 (strictEq_false_iff _ _) H).
Qed.

Lemma dailyTasks_terminal (s : State) :
  terminal s ->
  dailyTasks (tick s)
  = List.map (creditTask (selectedTaskId s) (get (durations s) (mode s) / 60))
      (dailyTasks s).
Proof. intros H. unfold tick. now rewrite tickC_terminal. Qed.

(** C5.  When a countdown reaches zero, the ledger keeps its length and
    order; a task whose id is the selected id keeps its id, name and
    target and gains exactly [floor (durations[mode] / 60)] completed
    minutes, with no cap at the target; a task with another id is
    unchanged; and when no task has the selected id, the whole ledger is
    unchanged.  In particular a 1500-second focus completion with
    "learning" selected in the default ledger gives completed minutes
    25, 0 and 0. *)
Theorem C5_credit_arithmetic (s : State) :
  terminal s ->
  let mins := get (durations s) (mode s) / 60 in
  List.length (dailyTasks (tick s)) = List.length (dailyTasks s)
  /\ (forall i t,
        nth_error (dailyTasks s) i = Some t ->
        exists t',
          nth_error (dailyTasks (tick s)) i = Some t'
          /\ id t' = id t /\ name t' = name t
          /\ targetMinutes t' = targetMinutes t
          /\ (id t = selectedTaskId s ->
              completedMinutes t' = completedMinutes t + mins)
          /\ (id t <> selectedTaskId s -> t' = t))
  /\ ((forall t, In t (dailyTasks s) -> id t <> selectedTaskId s) ->
      dailyTasks (tick s) = dailyTasks s)
  /\ (mode s = focus -> get (durations s) focus = 1500 ->
      dailyTasks s = DEFAULT_TASKS -> selectedTaskId s = lit "learning" ->
      List.map completedMinutes (dailyTasks (tick s)) = [25; 0; 0]).
Proof.
  intros Hterm mins. rewrite (dailyTasks_terminal s Hterm). fold mins.
  split; [apply List.length_map | split; [|split]].
  - intros i t Hi. eexists. split; [apply map_nth_error; exact Hi|].
    destruct (list_eq_dec N.eq_dec (id t) (selectedTaskId s)) as [He|Hne].
    + rewrite (creditTask_selected _ _ _ He). simpl.
      repeat split; auto. intros Hn; contradiction.
    + rewrite (creditTask_other _ _ _ Hne).
      repeat split; auto. intros He; contradiction.
  - intros Hnone. rewrite <- (map_id (dailyTasks s)) at 2.
    apply map_ext_in. intros t Hin. apply creditTask_other, Hnone, Hin.
  - subst mins. intros -> Hd -> ->. rewrite Hd. reflexivity.
Qed.

Lemma C5_credit_arithmetic_witness :
  let s := run ([Start] ++ repeat Tick 1499) init in
  timeLeft s = 1
  /\ List.map completedMinutes (dailyTasks (tick s)) = [25; 0; 0].
Proof.
  intro s.
  assert (Ht : terminal s).
  { split; [vm_compute; reflexivity | vm_compute; discriminate]. }
  split; [vm_compute; reflexivity|].
  apply (proj2 (proj2 (proj2 (C5_credit_arithmetic s Ht))));
    vm_compute; reflexivity.
Defined.

(** ** C6: the timer invariants *)




(** ** C7: editing a duration *)

(** C7 (as stated, refuted).  Counterexample: for the input
    "9007199254740994" the parsed minutes are 9007199254740994 and
    [max 1 parsedMinutes * 60] is 540431955284459640, but the product is
    rounded in binary64 and the component stores 540431955284459648.
    The parse itself is rounded too: "9007199254740993" is read as
    9007199254740992. *)
Lemma C7_large_input_is_rounded :
  let v := lit "9007199254740994" in
  Number.parseInt v = Some 9007199254740994
  /\ Z.max 1 9007199254740994 * 60 = 540431955284459640
  /\ storedDuration64 v = Binary64.Finite 540431955284459648
  /\ Binary64.parseInt (lit "9007199254740993")
     = Binary64.Finite 9007199254740992.
Proof. vm_compute. repeat split; reflexivity. Qed.

(** C7 (amended).  For every mode and every input string whose parsed
    minutes are at most 150119987579016 (so that the seconds stay
    within 2^53), [handleDurationChange] changes only the pending table,
    to what [editDuration] of the specification gives: the entry of the
    mode becomes [max 1 parsedMinutes * 60], where an input that does
    not parse counts as 0 minutes, the other entries are kept, and that
    entry is the value the component computes in binary64.  The inputs
    "-5" and "abc" both store 60 seconds. *)
Theorem C7_duration_edit_clamp (m : TimerMode) (value : jsstring) (s : State) :
  let s' := step (DurationChange m value) s in
  let parsedMinutes :=
    match Number.parseInt value with Some n => n | None => 0 end in
  (parsedMinutes <= maxExactMinutes ->
   s' = setTempDurations (editDuration m value (tempDurations s)) s
   /\ get (tempDurations s') m = Z.max 1 parsedMinutes * 60
   /\ (forall m', m' <> m ->
         get (tempDurations s') m' = get (tempDurations s) m')
   /\ storedDuration64 value
      = Binary64.Finite (get (tempDurations s') m))
  /\ get (tempDurations (step (DurationChange m (lit "-5")) s)) m = 60
  /\ storedDuration64 (lit "-5") = Binary64.Finite 60
  /\ get (tempDurations (step (DurationChange m (lit "abc")) s)) m = 60
  /\ storedDuration64 (lit "abc") = Binary64.Finite 60.
Proof.
  unfold step; simpl. unfold handleDurationChange, editDuration.
  split.
  - intros Hle. rewrite <- orZero_spec in Hle.
    rewrite (storedDuration64_exact value Hle).
    rewrite orZero_spec. simpl.
    split; [reflexivity | split; [apply get_set_same | split]].
    + intros m' Hne. apply get_set_other, Hne.
    + now rewrite get_set_same.
  - repeat split; destruct m; reflexivity.
Qed.

Lemma C7_duration_edit_clamp_witness :
  get (tempDurations (step (DurationChange focus (lit "0x1F")) init))
    short_break = 300
  /\ storedDuration64 (lit "0x1F") = Binary64.Finite 1860.
Proof.
  assert (H : match Number.parseInt (lit "0x1F") with
              | Some n => n | None => 0 end <= maxExactMinutes)
    by (vm_compute; discriminate).
  destruct (proj1 (C7_duration_edit_clamp focus (lit "0x1F") init) H)
    as (_ & _ & Hother & Hst).
  split.
  - rewrite Hother by discriminate. reflexivity.
  - rewrite Hst. reflexivity.
Defined.

(** ** C8: saving and discarding edits *)

(** A sequence of edits changes the pending table and nothing else. *)
Lemma run_edits_frame (edits : list (TimerMode * jsstring)) (s : State) :
  run (List.map asEdit edits) s
  = setTempDurations (tempDurations (run (List.map asEdit edits) s)) s.
Proof.
  revert s. induction edits as [|[m v] edits IH]; intros s; simpl.
  - destruct s; reflexivity.
  - rewrite IH at 1. reflexivity.
Qed.

(** C8.  After any sequence of duration edits, discarding to the defaults
    changes only the pending table: the active table, mode, time left,
    running and complete flags are those from before the edits.  Saving
    copies the pending table into the active table and at once sets
    [timeLeft] to the new active duration of the current mode,
    [isRunning] and [isComplete] to false, and keeps the mode. *)
Theorem C8_save_commits_discard_does_not
    (edits : list (TimerMode * jsstring)) (s : State) :
  let s1 := run (List.map asEdit edits) s in
  let sd := step ResetDurations s1 in
  let sv := step SaveDurations s1 in
  (sd = setTempDurations DEFAULT_DURATIONS s
   /\ durations sd = durations s /\ mode sd = mode s
   /\ timeLeft sd = timeLeft s /\ isRunning sd = isRunning s
   /\ isComplete sd = isComplete s)
  /\ (durations sv = tempDurations s1
      /\ timeLeft sv = get (durations sv) (mode s)
      /\ isRunning sv = false /\ isComplete sv = false
      /\ mode sv = mode s
      /\ tempDurations sv = tempDurations s1
      /\ dailyTasks sv = dailyTasks s
      /\ selectedTaskId sv = selectedTaskId s).
Proof.
  intros s1 sd sv. subst sd sv.
  pose proof (run_edits_frame edits s) as Hf. fold s1 in Hf.
  split.
  - rewrite Hf. repeat split.
  - unfold step; simpl. rewrite Hf. repeat split.
Qed.

(** ** C9: starting with nothing left *)

(** C9.  The interval fires only while [isRunning] and [timeLeft > 0]: in
    any other state a tick changes nothing and issues no credit.  So when
    start is pressed with [timeLeft = 0], the state becomes running, not
    complete, with [timeLeft = 0], and no number of ticks changes it,
    completes it or issues a credit. *)
Theorem C9_start_at_zero_is_stuck :
  (forall s, isRunning s = false \/ timeLeft s <= 0 -> tickC s = (s, 0%nat))
  /\ (forall s, tick s <> s -> isRunning s = true /\ 0 < timeLeft s)
  /\ (forall s, timeLeft s = 0 ->
        let s1 := step Start s in
        isRunning s1 = true /\ isComplete s1 = false /\ timeLeft s1 = 0
        /\ forall n : nat,
             run (repeat Tick n) s1 = s1
             /\ credits (repeat Tick n) s1 = 0%nat
             /\ dailyTasks (run (repeat Tick n) s1) = dailyTasks s).
Proof.
  assert (Hun : forall s, isRunning s = false \/ timeLeft s <= 0 ->
                          armed s = false).
  { intros s H. destruct (armed s) eqn:Ha; [|reflexivity].
    apply armed_iff in Ha. destruct Ha as [Hr Hp].
    destruct H as [H|H]; [congruence | lia]. }
  split; [|split].
  - intros s H. apply tickC_unarmed, Hun, H.
  - intros s Hne. apply armed_iff.
    destruct (armed s) eqn:Ha; [reflexivity|].
    exfalso. apply Hne. unfold tick. now rewrite tickC_unarmed.
  - intros s H0 s1.
    assert (Hu : armed s1 = false) by (apply Hun; right; simpl; lia).
    split; [reflexivity | split; [reflexivity | split; [exact H0|]]].
    intros n. rewrite run_ticks_unarmed, credits_ticks_unarmed by exact Hu.
    repeat split.
Qed.

Lemma C9_start_at_zero_is_stuck_witness :
  let s := run ([Start] ++ repeat Tick 1500) init in
  timeLeft s = 0
  /\ run (repeat Tick 5) (step Start s) = step Start s.
Proof.
  intro s.
  assert (H0 : timeLeft s = 0) by (vm_compute; reflexivity).
  split; [exact H0|].
  destruct C9_start_at_zero_is_stuck as (_ & _ & H).
  exact (proj1 (proj2 (proj2 (proj2 (H s H0))) 5%nat)).
Defined.

(** ** C10: durations are whole minutes *)

Lemma exactReachable_reachable (s : State) :
  exactReachable s -> reachable s.
Proof. intros (es & _ & ->). exists es. reflexivity. Qed.

Lemma exactReachable_ind' (P : State -> Prop) :
  P init ->
  (forall e s, exactReachable s -> exactEvent e = true -> P s ->
               P (step e s)) ->
  forall s, exactReachable s -> P s.
Proof.
  intros H0 Hstep s (es & Hex & ->).
  induction es as [|e es IH] using rev_ind; [exact H0|].
  rewrite forallb_app in Hex. apply andb_true_iff in Hex.
  destruct Hex as [Hes He]. simpl in He. rewrite andb_true_r in He.
  rewrite run_app. simpl. apply Hstep; auto.
  exists es. auto.
Qed.

(** Along events of the exact range no duration exceeds 2^53. *)
Lemma exact_tables_bounded (s : State) :
  exactReachable s ->
  forall m, get (durations s) m <= 2 ^ 53
            /\ get (tempDurations s) m <= 2 ^ 53.
Proof.
  revert s.
  apply (exactReachable_ind'
           (fun s => forall m, get (durations s) m <= 2 ^ 53
                               /\ get (tempDurations s) m <= 2 ^ 53)).
  - intros [| |]; split; vm_compute; discriminate.
  - intros e s _ He IH m.
    destruct e; unfold step; simpl; try apply IH;
      try (split; apply IH).
    + split; [apply IH|].
      simpl in He. apply Z.leb_le in He. unfold maxExactMinutes in He.
      destruct (TimerMode_eq_dec m m0) as [->|Hne].
      * rewrite get_set_same. rewrite ?pow2_53. lia.
      * rewrite get_set_other by exact Hne. apply IH.
    + split; [apply IH|]. destruct m; vm_compute; discriminate.
    + fold (tick s). unfold tick.
      tick_case s Hu Ha Hgt Hterm; simpl; apply IH.
Qed.

(** C10 (as stated, refuted).  Counterexample: with the settings open
    the user types 9007199254740994 in the focus field.  The component
    stores 540431955284459648 seconds in the pending table, which
    leaves remainder 8 when divided by 60. *)
Lemma C10_large_edit_not_whole_minutes :
  let v := lit "9007199254740994" in
  allEnabled [ToggleSettings; DurationChange focus v] init = true
  /\ storedDuration64 v = Binary64.Finite 540431955284459648
  /\ 540431955284459648 mod 60 = 8.
Proof. vm_compute. repeat split; reflexivity. Qed.

(** C10 (amended).  In every state reached by events whose duration
    edits are of at most 150119987579016 minutes, every entry of the
    active table and of the pending table is a positive multiple of 60
    seconds, at least 60 and at most 2^53; each event that loads
    [timeLeft] from a table (mode selection, reset, save) loads such a
    value; and an edit of that range stores the value the component
    computes in binary64. *)
Theorem C10_whole_minute_durations (s : State) :
  exactReachable s ->
  TableOK (durations s)
  /\ TableOK (tempDurations s)
  /\ (forall m,
        60 <= get (durations s) m <= 2 ^ 53
        /\ get (durations s) m mod 60 = 0
        /\ 60 <= get (tempDurations s) m <= 2 ^ 53
        /\ get (tempDurations s) m mod 60 = 0)
  /\ (forall e, reloads e = true -> WholeMinutes (timeLeft (step e s)))
  /\ (forall m value,
        exactEvent (DurationChange m value) = true ->
        storedDuration64 value
        = Binary64.Finite
            (get (tempDurations (step (DurationChange m value) s)) m)).
Proof.
  intros Hx. pose proof (exact_tables_bounded s Hx) as Hb.
  destruct (Inv_reachable s (exactReachable_reachable s Hx))
    as (Hd & Ht & _).
  assert (Hmod : forall v, WholeMinutes v -> 60 <= v /\ v mod 60 = 0).
  { intros v Hv. split; [apply WholeMinutes_ge, Hv|].
    destruct Hv as (k & _ & ->). apply Z.mod_mul. lia. }
  split; [exact Hd | split; [exact Ht | split; [|split]]].
  - intros m. destruct (Hmod _ (Hd m)), (Hmod _ (Ht m)), (Hb m).
    repeat split; auto.
  - intros e He. destruct e; try discriminate He; unfold step; simpl.
    + apply Hd.
    + apply Hd.
    + apply Ht.
  - intros m value He. simpl in He. apply Z.leb_le in He.
    rewrite (storedDuration64_exact value He).
    unfold step; simpl. now rewrite get_set_same.
Qed.

Lemma C10_whole_minute_durations_witness :
  let s := run [ToggleSettings; DurationChange long_break (lit "-3");
                DurationChange focus (lit " 45min"); SaveDurations] init in
  durations s = mkDurations 2700 300 60
  /\ get (durations s) focus mod 60 = 0.
Proof.
  intro s. split; [vm_compute; reflexivity|].
  assert (Hr : exactReachable s).
  { eexists. split; [|reflexivity]. vm_compute. reflexivity. }
  exact (proj1 (proj2 (proj1 (proj2 (proj2
           (C10_whole_minute_durations s Hr))) focus))).
Defined.

(** * Further properties of the component *)

(** ** The timer between two reloads *)

Lemma timeLeft_step_no_reload (e : Event) (s : State) :
  reloads e = false ->
  timeLeft (step e s)
  = timeLeft s
    - Z.of_nat (match e with
                | Tick => if armed s then 1%nat else 0%nat
                | _ => 0%nat
                end).
Proof.
  intros Hr. destruct e; try discriminate Hr; unfold step; simpl;
    try lia.
  tick_case s Hu Ha Hgt Hterm; simpl.
  - rewrite Hu. simpl. lia.
  - rewrite Ha. simpl. lia.
  - rewrite (proj1 Hterm), (terminal_timeLeft s Hterm). reflexivity.
Qed.

(** X1.  Seconds are neither lost nor gained: from a state with
    [timeLeft] at most 2^53, along a run without mode selection, reset
    or save, whatever the order of starts, pauses, ticks and other
    events, [timeLeft] has dropped by exactly the number of ticks at
    which the interval was armed, and so stays within 2^53. *)
Theorem X1_time_is_conserved (es : list Event) (s : State) :
  timeLeft s <= 2 ^ 53 ->
  forallb (fun e => negb (reloads e)) es = true ->
  timeLeft (run es s) = timeLeft s - Z.of_nat (fired es s)
  /\ timeLeft (run es s) <= 2 ^ 53.
Proof.
  intros Hb Hall.
  assert (H : timeLeft (run es s) = timeLeft s - Z.of_nat (fired es s)).
  { clear Hb. revert s Hall.
    induction es as [|e es IH]; intros s Hall; simpl in *.
    - lia.
    - apply andb_true_iff in Hall. destruct Hall as [He Hes].
      apply negb_true_iff in He.
      rewrite (IH _ Hes), (timeLeft_step_no_reload e s He). lia. }
  split; [exact H | lia].
Qed.

Lemma X1_time_is_conserved_witness :
  timeLeft (run [Start; Tick; Tick; Pause; Tick; Tick; Start; Tick] init)
  = 1497.
Proof.
  assert (Hb : timeLeft init <= 2 ^ 53) by (vm_compute; discriminate).
  rewrite (proj1 (X1_time_is_conserved
                    [Start; Tick; Tick; Pause; Tick; Tick; Start; Tick]
                    init Hb eq_refl)).
  reflexivity.
Defined.

(** X2.  Pause and resume: pausing a running timer, letting any number
    of seconds pass and pressing Start gives back exactly the state in
    which Pause was pressed. *)
Theorem X2_pause_resume (k : nat) (s : State) :
  isRunning s = true -> isComplete s = false ->
  run (Pause :: repeat Tick k ++ [Start]) s = s.
Proof.
  intros Hr Hc. simpl. rewrite run_app, run_ticks_unarmed by reflexivity.
  destruct s; simpl in *; subst; reflexivity.
Qed.

Lemma X2_pause_resume_witness :
  let s := run [Start; Tick; Tick] init in
  run (Pause :: repeat Tick 30 ++ [Start]) s = s.
Proof. intro s. apply X2_pause_resume; reflexivity. Defined.

(** X3.  The disabled buttons hide nothing: in a reachable state in
    which the page disables Start (the timer is running) pressing it
    would change nothing, and likewise for Pause (the timer is not
    running). *)
Theorem X3_disabled_buttons_are_no_ops (s : State) :
  reachable s ->
  (enabled Start s = false -> step Start s = s)
  /\ (enabled Pause s = false -> step Pause s = s).
Proof.
  intros Hr. destruct (Inv_reachable s Hr) as (_ & _ & _ & Hrc).
  split; intros He; simpl in He.
  - apply negb_false_iff in He.
    assert (Hc : isComplete s = false).
    { destruct (isComplete s); [exfalso; apply Hrc; auto | reflexivity]. }
    destruct s; simpl in *; subst; reflexivity.
  - destruct s; simpl in *; subst; reflexivity.
Qed.

Lemma X3_disabled_buttons_are_no_ops_witness :
  let s := run [Start; Tick] init in
  enabled Start s = false /\ step Start s = s.
Proof.
  intro s. split; [reflexivity|].
  assert (Hr : reachable s) by (exists [Start; Tick]; reflexivity).
  apply (proj1 (X3_disabled_buttons_are_no_ops s Hr)). reflexivity.
Defined.

(** X4.  The completion banner is shown only at zero: in every reachable
    state with [isComplete = true], [timeLeft] is 0 and the timer is not
    running. *)
Theorem X4_complete_only_at_zero (s : State) :
  reachable s ->
  isComplete s = true -> timeLeft s = 0 /\ isRunning s = false.
Proof.
  revert s.
  apply (reachable_ind'
           (fun s => isComplete s = true ->
                     timeLeft s = 0 /\ isRunning s = false));
    [discriminate|].
  intros e s _ IH. destruct e; unfold step; simpl; try discriminate;
    try exact IH.
  - intros Hc. split; [apply IH, Hc | reflexivity].
  - tick_case s Hu Ha Hgt Hterm; simpl; [exact IH | | auto].
    intros Hc. apply armed_iff in Ha. destruct (IH Hc). intuition congruence.
Qed.

Lemma X4_complete_only_at_zero_witness :
  let s := run ([ModeChange short_break; Start] ++ repeat Tick 300
                ++ [ToggleSettings; Pause]) init in
  isComplete s = true /\ timeLeft s = 0.
Proof.
  intro s.
  assert (Hr : reachable s) by (eexists; reflexivity).
  assert (Hc : isComplete s = true) by (vm_compute; reflexivity).
  split; [exact Hc | exact (proj1 (X4_complete_only_at_zero s Hr Hc))].
Defined.

(** X5.  What each event leaves alone: the active table changes only by
    a save, the mode only by a mode selection, the selected task only by
    a task button, the pending table only by an edit, a discard or the
    settings button, and the settings panel opens or closes only by its
    button or by a save. *)
Theorem X5_frame (e : Event) (s : State) :
  (durations (step e s) <> durations s -> e = SaveDurations)
  /\ (mode (step e s) <> mode s -> exists m, e = ModeChange m)
  /\ (selectedTaskId (step e s) <> selectedTaskId s ->
      exists i, e = SelectTask i)
  /\ (tempDurations (step e s) <> tempDurations s ->
      e = ToggleSettings \/ e = ResetDurations
      \/ exists m v, e = DurationChange m v)
  /\ (showSettings (step e s) <> showSettings s ->
      e = ToggleSettings \/ e = SaveDurations).
Proof.
  assert (Htick : durations (tick s) = durations s
                  /\ mode (tick s) = mode s
                  /\ selectedTaskId (tick s) = selectedTaskId s
                  /\ tempDurations (tick s) = tempDurations s
                  /\ showSettings (tick s) = showSettings s).
  { unfold tick. tick_case s Hu Ha Hgt Hterm; repeat split. }
  destruct Htick as (H1 & H2 & H3 & H4 & H5).
  destruct e; unfold step; simpl; fold (tick s);
    rewrite ?H1, ?H2, ?H3, ?H4, ?H5;
    repeat split; intros H; try congruence; eauto.
Qed.

Lemma X5_frame_witness :
  let s := run [ToggleSettings; DurationChange focus (lit "50")] init in
  durations (step SaveDurations s) <> durations s
  /\ SaveDurations = SaveDurations.
Proof.
  intro s.
  assert (Hd : durations (step SaveDurations s) <> durations s)
    by (vm_compute; discriminate).
  split; [exact Hd | exact (proj1 (X5_frame SaveDurations s) Hd)].
Defined.

(** ** The ledger *)

Lemma taskKey_creditTask (sel : jsstring) (mins : Z) (t : DailyTask) :
  taskKey (creditTask sel mins t) = taskKey t.
Proof. unfold creditTask. destruct (strictEq (id t) sel); reflexivity. Qed.

Lemma completed_creditTask (sel : jsstring) (mins : Z) (t : DailyTask) :
  0 <= mins ->
  completedMinutes t <= completedMinutes (creditTask sel mins t).
Proof.
  intros H. unfold creditTask. destruct (strictEq (id t) sel); simpl; lia.
Qed.

Lemma credit_minutes_nonneg (s : State) :
  Inv s -> 0 <= get (durations s) (mode s) / 60.
Proof.
  intros (Hd & _). apply Z.div_pos; [|lia].
  pose proof (WholeMinutes_ge _ (Hd (mode s))). lia.
Qed.

(** Either an event leaves the ledger alone, or it resets it, or it is
    the terminal tick and maps the credit over it. *)
Lemma dailyTasks_step (e : Event) (s : State) :
  dailyTasks (step e s) = dailyTasks s
  \/ (e = ResetDailyTasks /\ dailyTasks (step e s) = DEFAULT_TASKS)
  \/ (e = Tick /\ terminal s
      /\ dailyTasks (step e s)
         = List.map
             (creditTask (selectedTaskId s)
                (get (durations s) (mode s) / 60))
             (dailyTasks s)).
Proof.
  destruct e; unfold step; simpl; auto.
  tick_case s Hu Ha Hgt Hterm; simpl; auto.
Qed.

Lemma ledger_shape_reachable (s : State) :
  reachable s ->
  List.map taskKey (dailyTasks s) = List.map taskKey DEFAULT_TASKS
  /\ Forall (fun t => 0 <= completedMinutes t) (dailyTasks s).
Proof.
  revert s.
  apply (reachable_ind'
           (fun s =>
              List.map taskKey (dailyTasks s) = List.map taskKey DEFAULT_TASKS
              /\ Forall (fun t => 0 <= completedMinutes t) (dailyTasks s))).
  - split; [reflexivity|]. repeat constructor; simpl; lia.
  - intros e s Hr [Hk Hc].
    pose proof (credit_minutes_nonneg s (Inv_reachable s Hr)) as Hm.
    destruct (dailyTasks_step e s) as [-> | [[_ ->] | (_ & _ & ->)]].
    + auto.
    + split; [reflexivity|]. repeat constructor; simpl; lia.
    + split.
      * rewrite map_map, <- Hk. apply map_ext. apply taskKey_creditTask.
      * apply Forall_map. revert Hc. apply Forall_impl. intros t Ht.
        pose proof (completed_creditTask (selectedTaskId s) _ t Hm). lia.
Qed.

(** X6.  The ledger keeps its shape: in every reachable state the tasks
    are the default tasks in the default order, with the same ids, names
    and targets, and no task has negative completed minutes. *)
Theorem X6_ledger_shape (s : State) :
  reachable s ->
  List.map taskKey (dailyTasks s) = List.map taskKey DEFAULT_TASKS
  /\ Forall (fun t => 0 <= completedMinutes t) (dailyTasks s).
Proof. exact (ledger_shape_reachable s). Qed.

Lemma X6_ledger_shape_witness :
  let s := run ([Start] ++ repeat Tick 1500 ++ [SelectTask (lit "nobody")])
             init in
  List.map id (dailyTasks s)
  = [lit "learning"; lit "coding"; lit "aptitude"].
Proof.
  intro s.
  assert (Hr : reachable s) by (eexists; reflexivity).
  pose proof (proj1 (X6_ledger_shape s Hr)) as H.
  apply (f_equal (List.map (fun k => fst (fst k)))) in H.
  rewrite map_map in H. exact H.
Defined.

(** X7.  Progress is never taken back: from a reachable state every
    event other than the ledger reset leaves each task in its place with
    at least the completed minutes it had. *)
Theorem X7_ledger_monotone (e : Event) (s : State) :
  reachable s ->
  e <> ResetDailyTasks ->
  Forall2
    (fun t t' =>
       taskKey t' = taskKey t /\ completedMinutes t <= completedMinutes t')
    (dailyTasks s) (dailyTasks (step e s)).
Proof.
  intros Hr Hne.
  pose proof (credit_minutes_nonneg s (Inv_reachable s Hr)) as Hm.
  destruct (dailyTasks_step e s) as [-> | [[He _] | (_ & _ & ->)]].
  - induction (dailyTasks s); constructor; auto. split; [reflexivity | lia].
  - contradiction.
  - induction (dailyTasks s); simpl; constructor; auto.
    split; [apply taskKey_creditTask | apply completed_creditTask, Hm].
Qed.

Lemma X7_ledger_monotone_witness :
  let s := run ([Start] ++ repeat Tick 1499) init in
  Forall2
    (fun t t' =>
       taskKey t' = taskKey t /\ completedMinutes t <= completedMinutes t')
    (dailyTasks s) (dailyTasks (step Tick s)).
Proof.
  intro s. apply X7_ledger_monotone.
  - eexists; reflexivity.
  - discriminate.
Defined.

(** ** What the page lets the user reach *)

Lemma allEnabled_app (es1 es2 : list Event) (s : State) :
  allEnabled (es1 ++ es2) s
  = allEnabled es1 s && allEnabled es2 (run es1 s).
Proof.
  revert s. induction es1 as [|e es1 IH]; intros s; simpl; [reflexivity|].
  rewrite IH. apply andb_assoc.
Qed.

Lemma uiReachable_reachable (s : State) : uiReachable s -> reachable s.
Proof. intros (es & _ & ->). exists es. reflexivity. Qed.

Lemma uiReachable_ind' (P : State -> Prop) :
  P init ->
  (forall e s, uiReachable s -> enabled e s = true -> P s -> P (step e s)) ->
  forall s, uiReachable s -> P s.
Proof.
  intros H0 Hstep s (es & Hen & ->).
  induction es as [|e es IH] using rev_ind; [exact H0|].
  rewrite allEnabled_app in Hen. apply andb_true_iff in Hen.
  destruct Hen as [Hes He]. simpl in He. rewrite andb_true_r in He.
  rewrite run_app. simpl. apply Hstep; auto.
  exists es. auto.
Qed.

Lemma existsb_id_In (i : jsstring) (tasks : list DailyTask) :
  existsb (fun t => strictEq (id t) i) tasks = true ->
  In i (List.map id tasks).
Proof.
  rewrite existsb_exists. intros (t & Hin & Heq).
  apply strictEq_true_iff in Heq. subst i. apply in_map, Hin.
Qed.

Lemma map_id_taskKey (tasks : list DailyTask) :
  List.map id tasks = List.map (fun k => fst (fst k)) (List.map taskKey tasks).
Proof. rewrite map_map. reflexivity. Qed.

Lemma selectedTaskId_step (e : Event) (s : State) :
  selectedTaskId (step e s) = selectedTaskId s
  \/ exists i, e = SelectTask i /\ selectedTaskId (step e s) = i.
Proof.
  destruct e; unfold step; simpl; eauto.
  tick_case s Hu Ha Hgt Hterm; simpl; auto.
Qed.

(** The task buttons only offer ids of the ledger, so the selected id
    is always one of the three default ids. *)
Lemma selected_resolves (s : State) :
  uiReachable s -> In (selectedTaskId s) (List.map id DEFAULT_TASKS).
Proof.
  revert s. apply uiReachable_ind'.
  - left. reflexivity.
  - intros e s Hu Hen IH.
    destruct (selectedTaskId_step e s) as [Hs|Hs].
    + rewrite Hs. exact IH.
    + destruct Hs as (i & -> & ->). simpl in Hen.
      apply existsb_id_In in Hen.
      rewrite map_id_taskKey in Hen |- *.
      rewrite <- (proj1 (ledger_shape_reachable s
                           (uiReachable_reachable s Hu))).
      exact Hen.
Qed.

(** X8.  No credit of the user is dropped: in a state the user can
    reach, the selected id is the id of a task of the ledger, and the
    terminal tick raises the total of completed minutes by exactly
    [floor (durations[mode] / 60)]. *)
Theorem X8_credit_never_dropped (s : State) :
  uiReachable s ->
  In (selectedTaskId s) (List.map id (dailyTasks s))
  /\ (terminal s ->
      totalCompleted (dailyTasks (tick s))
      = totalCompleted (dailyTasks s) + get (durations s) (mode s) / 60).
Proof.
  intros Hu.
  pose proof (selected_resolves s Hu) as Hsel.
  pose proof (proj1 (ledger_shape_reachable s (uiReachable_reachable s Hu)))
    as Hk.
  split.
  - rewrite map_id_taskKey, Hk, <- map_id_taskKey. exact Hsel.
  - intros Hterm. rewrite (dailyTasks_terminal s Hterm).
    generalize (get (durations s) (mode s) / 60) as mins. intros mins.
    destruct (dailyTasks s) as [|t1 [|t2 [|t3 [|t4 l]]]];
      try discriminate Hk.
    injection Hk as H1 _ _ H2 _ _ H3.
    unfold creditTask, totalCompleted. simpl. rewrite H1, H2, H3.
    destruct Hsel as [<- | [<- | [<- | []]]]; simpl; lia.
Qed.

Lemma X8_credit_never_dropped_witness :
  let es := [SelectTask (lit "coding"); ModeChange short_break; Start]
            ++ repeat Tick 299 in
  totalCompleted (dailyTasks (tick (run es init))) = 5.
Proof.
  intro es.
  assert (Hu : uiReachable (run es init)).
  { exists es. split; [vm_compute; reflexivity | reflexivity]. }
  assert (Ht : terminal (run es init)).
  { split; [vm_compute; reflexivity | vm_compute; discriminate]. }
  rewrite (proj2 (X8_credit_never_dropped _ Hu) Ht).
  vm_compute. reflexivity.
Defined.

(** ** The settings panel *)

Lemma tick_frame (s : State) :
  durations (tick s) = durations s
  /\ tempDurations (tick s) = tempDurations s
  /\ showSettings (tick s) = showSettings s.
Proof. unfold tick. tick_case s Hu Ha Hgt Hterm; repeat split. Qed.

(** X9.  A closed panel holds no pending edits: in every state the user
    can reach with the settings panel closed, the pending table equals
    the active table. *)
Theorem X9_closed_panel_has_no_pending_edits (s : State) :
  uiReachable s ->
  showSettings s = false -> tempDurations s = durations s.
Proof.
  revert s.
  apply (uiReachable_ind'
           (fun s => showSettings s = false ->
                     tempDurations s = durations s)).
  - reflexivity.
  - intros e s _ Hen IH.
    destruct e; unfold step; simpl in *; try exact IH; try reflexivity;
      try (intros Hs; congruence).
    fold (tick s). destruct (tick_frame s) as (-> & -> & ->). exact IH.
Qed.

Lemma X9_closed_panel_has_no_pending_edits_witness :
  let es := [ToggleSettings; DurationChange focus (lit "50");
             ResetDurations; DurationChange long_break (lit "20");
             ToggleSettings; Start; Tick] in
  tempDurations (run es init) = durations (run es init).
Proof.
  intro es. apply X9_closed_panel_has_no_pending_edits.
  - exists es. split; [vm_compute; reflexivity | reflexivity].
  - vm_compute. reflexivity.
Defined.

(** X10.  The settings button discards unsaved edits: after any
    sequence of edits, pressing it (to close or to reopen the panel)
    sets the pending table back to the active table, which the edits
    have not changed; a save after that keeps the active table and only
    resets the timer to it. *)
Theorem X10_toggle_discards_edits
    (edits : list (TimerMode * jsstring)) (s : State) :
  let s' := step ToggleSettings (run (List.map asEdit edits) s) in
  tempDurations s' = durations s
  /\ durations s' = durations s
  /\ step SaveDurations s'
     = setShowSettings false (setTempDurations (durations s) (step Reset s)).
Proof.
  intros s'. subst s'. rewrite (run_edits_frame edits s).
  repeat split.
Qed.

(** X11.  The last edit of a mode wins: after any sequence of edits in
    which the last edit of mode [m], if there is one, is of at most
    150119987579016 minutes, the pending duration of [m] is
    [max 1 minutes * 60] for the input of that edit, whatever was
    entered before or for other modes, and is the value the component
    computes for it in binary64; it is unchanged when [m] was not
    edited. *)
Theorem X11_last_edit_wins
    (m : TimerMode) (edits : list (TimerMode * jsstring)) (s : State) :
  (forall v, lastEdit m edits = Some v ->
             orZero (Number.parseInt v) <= maxExactMinutes) ->
  get (tempDurations (run (List.map asEdit edits) s)) m
  = match lastEdit m edits with
    | Some v =>
        Z.max 1 (match Number.parseInt v with Some n => n | None => 0 end)
        * 60
    | None => get (tempDurations s) m
    end
  /\ (forall v, lastEdit m edits = Some v ->
        storedDuration64 v
        = Binary64.Finite
            (get (tempDurations (run (List.map asEdit edits) s)) m)).
Proof.
  intros Hb.
  assert (H : get (tempDurations (run (List.map asEdit edits) s)) m
              = match lastEdit m edits with
                | Some v => Z.max 1 (orZero (Number.parseInt v)) * 60
                | None => get (tempDurations s) m
                end).
  { clear Hb. unfold lastEdit.
    induction edits as [|[m' v] edits IH] using rev_ind; [reflexivity|].
    rewrite map_app, run_app, rev_app_distr. simpl.
    unfold step; simpl.
    destruct (TimerMode_eq_dec m' m) as [->|Hne]; simpl.
    - apply get_set_same.
    - rewrite get_set_other by congruence. exact IH. }
  split.
  - rewrite H. destruct (lastEdit m edits); [|reflexivity].
    now rewrite orZero_spec.
  - intros v Hv. rewrite H, Hv. apply storedDuration64_exact, Hb, Hv.
Qed.

Lemma X11_last_edit_wins_witness :
  get (tempDurations
         (run (List.map asEdit
                 [(focus, lit "9007199254740994"); (long_break, lit "7");
                  (focus, lit "30")]) init)) focus
  = 1800.
Proof.
  refine (eq_trans (proj1 (X11_last_edit_wins focus _ init _)) _).
  - intros v Hv. vm_compute in Hv. injection Hv as <-.
    vm_compute. discriminate.
  - reflexivity.
Defined.

(** ** Numbers and their decimal form *)

Lemma digit_cases (d : Z) :
  0 <= d < 10 ->
  d = 0 \/ d = 1 \/ d = 2 \/ d = 3 \/ d = 4 \/ d = 5 \/ d = 6 \/ d = 7
  \/ d = 8 \/ d = 9.
Proof. lia. Qed.

Ltac each_digit d H :=
  destruct (digit_cases d H)
    as [-> | [-> | [-> | [-> | [-> | [-> | [-> | [-> | [-> | ->]]]]]]]]].

Lemma digitValue_digitChar (d : Z) :
  0 <= d < 10 -> Number.digitValue (digitChar d) = Some d.
Proof. intros H. each_digit d H; reflexivity. Qed.

Lemma digitChar_inj (d d' : Z) :
  0 <= d < 10 -> 0 <= d' < 10 -> digitChar d = digitChar d' -> d = d'.
Proof. unfold digitChar. intros H H' Heq. lia. Qed.

Lemma digitsAux_app (fuel : nat) (n : Z) (acc : jsstring) :
  digitsAux fuel n acc = digitsAux fuel n [] ++ acc.
Proof.
  revert n acc. induction fuel as [|f IH]; intros n acc; simpl;
    [reflexivity|].
  destruct (n <? 10); [reflexivity|].
  rewrite (IH _ (_ :: acc)), (IH _ [_]), <- app_assoc. reflexivity.
Qed.

(** Any fuel that bounds the number gives the same digits. *)
Lemma digitsAux_fuel (f g : nat) (n : Z) (acc : jsstring) :
  (1 <= f)%nat -> (1 <= g)%nat ->
  0 <= n < 2 ^ Z.of_nat f -> n < 2 ^ Z.of_nat g ->
  digitsAux f n acc = digitsAux g n acc.
Proof.
  revert g n acc. induction f as [|f IH]; intros g n acc Hf Hg Hn Hng;
    [lia|].
  destruct g as [|g]; [lia|]. simpl.
  destruct (Z.ltb_spec n 10) as [Hlt|Hge]; [reflexivity|].
  rewrite Nat2Z.inj_succ, Z.pow_succ_r in Hn, Hng by lia.
  assert (Hq : 0 <= n / 10 < n / 2 + 1).
  { split; [apply Z.div_pos; lia|].
    pose proof (Z.div_le_compat_l n 2 10). lia. }
  assert (H2 : n / 2 < 2 ^ Z.of_nat f)
    by (apply Z.div_lt_upper_bound; lia).
  assert (H2' : n / 2 < 2 ^ Z.of_nat g)
    by (apply Z.div_lt_upper_bound; lia).
  assert (Hf1 : (1 <= f)%nat).
  { destruct f; [simpl in Hn; lia | lia]. }
  assert (Hg1 : (1 <= g)%nat).
  { destruct g; [simpl in Hng; lia | lia]. }
  apply IH; auto; lia.
Qed.

Lemma digitsOf_fuel (n : Z) :
  0 <= n -> n < 2 ^ Z.of_nat (S (Z.to_nat (Z.log2 n))).
Proof.
  intros Hn. rewrite Nat2Z.inj_succ, Z2Nat.id by apply Z.log2_nonneg.
  destruct (Z.eq_dec n 0) as [->|Hne]; [reflexivity|].
  apply Z.log2_spec. lia.
Qed.

(** The two equations of the decimal digits. *)
Lemma digitsOf_small (n : Z) : 0 <= n < 10 -> digitsOf n = [digitChar n].
Proof.
  intros H. unfold digitsOf. simpl.
  destruct (Z.ltb_spec n 10); [|lia].
  rewrite Z.mod_small by lia. reflexivity.
Qed.

Lemma digitsOf_step (n : Z) :
  10 <= n -> digitsOf n = digitsOf (n / 10) ++ [digitChar (n mod 10)].
Proof.
  intros H. unfold digitsOf at 1. simpl.
  destruct (Z.ltb_spec n 10); [lia|].
  rewrite digitsAux_app. f_equal.
  pose proof (digitsOf_fuel n ltac:(lia)) as Hf.
  rewrite Nat2Z.inj_succ, Z.pow_succ_r in Hf by lia.
  assert (Hq : 0 <= n / 10 <= n / 2).
  { split; [apply Z.div_pos; lia|]. apply Z.div_le_compat_l; lia. }
  assert (H2 : n / 2 < 2 ^ Z.of_nat (Z.to_nat (Z.log2 n)))
    by (apply Z.div_lt_upper_bound; lia).
  apply digitsAux_fuel.
  - destruct (Z.to_nat (Z.log2 n)); [simpl in H2; lia | lia].
  - lia.
  - lia.
  - apply digitsOf_fuel. lia.
Qed.

(** Induction on a number along its decimal digits. *)
Lemma decimal_ind (P : Z -> Prop) :
  (forall n, 0 <= n < 10 -> P n) ->
  (forall n, 10 <= n -> P (n / 10) -> P n) ->
  forall n, 0 <= n -> P n.
Proof.
  intros Hs Hst n Hn. generalize Hn. pattern n.
  apply Z_lt_induction; [|exact Hn].
  intros x IH Hx. destruct (Z_lt_le_dec x 10) as [Hlt|Hge].
  - apply Hs. lia.
  - assert (Hq : 0 <= x / 10 < x)
      by (split; [apply Z.div_pos; lia | apply Z.div_lt; lia]).
    apply Hst; [exact Hge|]. apply IH; lia.
Qed.

Lemma digitsOf_digits (n : Z) :
  0 <= n -> Forall isDigitChar (digitsOf n) /\ digitsOf n <> [].
Proof.
  revert n. apply (decimal_ind
    (fun n => Forall isDigitChar (digitsOf n) /\ digitsOf n <> [])).
  - intros n Hn. rewrite digitsOf_small by exact Hn.
    split; [|discriminate]. constructor; [|constructor]. exists n. auto.
  - intros n Hn [IH _]. rewrite digitsOf_step by exact Hn. split.
    + apply Forall_app. split; [exact IH|].
      constructor; [|constructor]. exists (n mod 10).
      split; [apply Z.mod_pos_bound; lia | reflexivity].
    + intros Heq. apply app_eq_nil in Heq. destruct Heq; discriminate.
Qed.

(** Reading the decimal digits of [n] gives [n], also after a zero. *)
Lemma parseDigits_digitsOf (n : Z) :
  0 <= n ->
  forall rest a0, a0 = None \/ a0 = Some 0 ->
  Number.parseDigits 10 (digitsOf n ++ rest) a0
  = Number.parseDigits 10 rest (Some n).
Proof.
  revert n. apply (decimal_ind
    (fun n => forall rest a0, a0 = None \/ a0 = Some 0 ->
       Number.parseDigits 10 (digitsOf n ++ rest) a0
       = Number.parseDigits 10 rest (Some n))).
  - intros n Hn rest a0 Ha. rewrite digitsOf_small by exact Hn. simpl.
    rewrite digitValue_digitChar by exact Hn.
    destruct (Z.ltb_spec n 10); [|lia].
    destruct Ha as [-> | ->]; reflexivity.
  - intros n Hn IH rest a0 Ha.
    rewrite digitsOf_step, <- app_assoc, IH by assumption. simpl.
    pose proof (Z.mod_pos_bound n 10 ltac:(lia)) as Hm.
    rewrite digitValue_digitChar by exact Hm.
    destruct (Z.ltb_spec (n mod 10) 10); [|lia].
    do 2 f_equal. pose proof (Z.div_mod n 10). lia.
Qed.

Lemma parseDigits_end (rest : jsstring) (acc : option Z) :
  endsNumber rest = true -> Number.parseDigits 10 rest acc = acc.
Proof.
  destruct rest as [|c r]; simpl; [reflexivity|].
  destruct (Number.digitValue c) as [v|]; [|reflexivity].
  intros H. apply andb_true_iff in H. destruct H as [H _].
  apply andb_true_iff in H. destruct H as [H _].
  destruct (Z.ltb_spec v 10); [|reflexivity]. apply Z.leb_le in H. lia.
Qed.

(** [Number.parseInt] on a string that starts with a decimal digit and
    has no "x" in second place. *)
Lemma parseInt_digit_head (d : Z) (tl : jsstring) :
  0 <= d < 10 ->
  match tl with
  | [] => True
  | x :: _ => N.eqb x 120 = false /\ N.eqb x 88 = false
  end ->
  Number.parseInt (digitChar d :: tl)
  = Number.parseDigits 10 (digitChar d :: tl) None
  /\ Number.parseInt (45%N :: digitChar d :: tl)
     = option_map Z.opp (Number.parseDigits 10 (digitChar d :: tl) None).
Proof.
  intros Hd Htl.
  assert (Hone : forall o : option Z, option_map (Z.mul 1) o = o)
    by (intros [[| |]|]; reflexivity).
  assert (Hopp : forall o : option Z,
            option_map (Z.mul (-1)) o = option_map Z.opp o)
    by (intros [[| |]|]; reflexivity).
  unfold Number.parseInt.
  each_digit d Hd;
    (destruct tl as [|x r]; [|destruct Htl as [Hx Hx']]);
    cbn -[Number.parseDigits option_map];
    rewrite ?Hx, ?Hx'; cbn -[Number.parseDigits option_map];
    rewrite ?Hone, ?Hopp; split; reflexivity.
Qed.

Lemma isDigitChar_not_x (c : N) :
  isDigitChar c -> N.eqb c 120 = false /\ N.eqb c 88 = false.
Proof. intros (d & Hd & ->). each_digit d Hd; split; reflexivity. Qed.

Lemma endsNumber_not_x (c : N) (r : jsstring) :
  endsNumber (c :: r) = true -> N.eqb c 120 = false /\ N.eqb c 88 = false.
Proof.
  simpl. destruct (N.eqb_spec c 120) as [->|]; [discriminate|].
  destruct (N.eqb_spec c 88) as [->|]; [discriminate|]. auto.
Qed.

Lemma parseInt_digits (n : Z) (rest : jsstring) :
  0 <= n -> endsNumber rest = true ->
  Number.parseInt (digitsOf n ++ rest) = Some n
  /\ Number.parseInt (45%N :: digitsOf n ++ rest) = Some (- n).
Proof.
  intros Hn Hrest.
  pose proof (parseDigits_digitsOf n Hn rest None (or_introl eq_refl)) as Hp.
  rewrite (parseDigits_end rest _ Hrest) in Hp.
  destruct (digitsOf_digits n Hn) as [Hall Hne].
  destruct (digitsOf n) as [|c0 tl]; [congruence|].
  inversion Hall as [|? ? (d & Hd & ->) Htl]; subst.
  simpl app in *.
  assert (Hx : match tl ++ rest with
               | [] => True
               | x :: _ => N.eqb x 120 = false /\ N.eqb x 88 = false
               end).
  { destruct tl as [|c1 tl'].
    - simpl. destruct rest; [exact I | eapply endsNumber_not_x; eauto].
    - simpl. inversion Htl; subst. now apply isDigitChar_not_x. }
  destruct (parseInt_digit_head d (tl ++ rest) Hd Hx) as [-> ->].
  rewrite Hp. split; reflexivity.
Qed.

Lemma parseInt_toString_app (n : Z) (rest : jsstring) :
  endsNumber rest = true ->
  Number.parseInt (toString n ++ rest) = Some n.
Proof.
  intros Hrest. unfold toString.
  destruct (Z.ltb_spec n 0) as [Hneg|Hpos].
  - simpl. rewrite (proj2 (parseInt_digits (- n) rest ltac:(lia) Hrest)).
    f_equal. lia.
  - apply (parseInt_digits n rest Hpos Hrest).
Qed.

(** X12.  Reading back what was printed: for every integer [n] of
    magnitude at most 2^53, [Number.parseInt] of [n.toString()] is [n],
    exactly and as a binary64 value, also when the digits are followed
    by text that does not start with a digit, an "x" or an "X". *)
Theorem X12_parseInt_toString (n : Z) (rest : jsstring) :
  Z.abs n <= 2 ^ 53 ->
  endsNumber rest = true ->
  Number.parseInt (toString n ++ rest) = Some n
  /\ Binary64.parseInt (toString n ++ rest) = Binary64.Finite n.
Proof.
  intros Hb Hrest. unfold Binary64.parseInt.
  rewrite (parseInt_toString_app n rest Hrest).
  split; [reflexivity | apply round_exact, Hb].
Qed.

Lemma X12_parseInt_toString_witness :
  Number.parseInt (toString (-42) ++ lit " min") = Some (-42).
Proof.
  apply X12_parseInt_toString; [vm_compute; discriminate | reflexivity].
Defined.

(** ** The settings field *)

Lemma set_get_same (d : Durations) (m : TimerMode) : set d m (get d m) = d.
Proof. destruct d, m; reflexivity. Qed.

(** X13.  Typing what the field shows changes nothing: in every state
    reached by events whose edits are of at most 150119987579016
    minutes, an edit of mode [m] whose input is the number the settings
    field of [m] displays leaves the whole state as it is, and the value
    the component computes for that input in binary64 is the pending
    duration of [m]. *)
Theorem X13_reentering_shown_value (m : TimerMode) (s : State) :
  exactReachable s ->
  step (DurationChange m (toString (durationFieldValue m s))) s = s
  /\ storedDuration64 (toString (durationFieldValue m s))
     = Binary64.Finite (get (tempDurations s) m).
Proof.
  intros Hx.
  destruct (Inv_reachable s (exactReachable_reachable s Hx))
    as (_ & Ht & _).
  destruct (exact_tables_bounded s Hx m) as [_ Hb]. rewrite pow2_53 in Hb.
  destruct (Ht m) as (k & Hk & Heq).
  assert (Hp : Number.parseInt (toString k) = Some k).
  { rewrite <- (app_nil_r (toString k)).
    apply parseInt_toString_app. reflexivity. }
  unfold durationFieldValue. rewrite Heq, Z.div_mul by lia.
  assert (Ho : orZero (Number.parseInt (toString k)) = k).
  { rewrite Hp. simpl. destruct (Z.eqb_spec k 0); [lia | reflexivity]. }
  split.
  - unfold step; simpl. unfold handleDurationChange.
    rewrite Ho, Z.max_r, <- Heq, set_get_same by lia.
    destruct s; reflexivity.
  - rewrite storedDuration64_exact; rewrite Ho.
    + rewrite Z.max_r by lia. reflexivity.
    + unfold maxExactMinutes. lia.
Qed.

Lemma X13_reentering_shown_value_witness :
  let s := run [ToggleSettings; DurationChange focus (lit "0x2d")] init in
  durationFieldValue focus s = 45
  /\ step (DurationChange focus (toString 45)) s = s.
Proof.
  intro s. split; [reflexivity|].
  assert (Hr : exactReachable s).
  { eexists. split; [|reflexivity]. vm_compute. reflexivity. }
  exact (proj1 (X13_reentering_shown_value focus s Hr)).
Defined.

(** ** The clock display *)

Lemma toString_nonneg (n : Z) : 0 <= n -> toString n = digitsOf n.
Proof. intros H. unfold toString. destruct (Z.ltb_spec n 0); [lia | auto]. Qed.

Lemma digitsOf_two (r : Z) :
  10 <= r < 100 -> digitsOf r = [digitChar (r / 10); digitChar (r mod 10)].
Proof.
  intros H. rewrite digitsOf_step, digitsOf_small; [reflexivity | | lia].
  split; [apply Z.div_pos; lia | apply Z.div_lt_upper_bound; lia].
Qed.

Lemma digitsOf_long (n : Z) : 10 <= n -> (2 <= List.length (digitsOf n))%nat.
Proof.
  intros H. rewrite digitsOf_step, length_app by exact H. simpl.
  destruct (digitsOf_digits (n / 10)) as [_ Hne];
    [apply Z.div_pos; lia|].
  destruct (digitsOf (n / 10)); [congruence | simpl; lia].
Qed.

Lemma padStart_small (r : Z) :
  0 <= r < 10 ->
  padStart 2 (lit "0") (toString r) = digitChar 0 :: digitsOf r.
Proof.
  intros H. rewrite toString_nonneg, digitsOf_small by lia. reflexivity.
Qed.

Lemma padStart_long (n : Z) :
  10 <= n -> padStart 2 (lit "0") (toString n) = digitsOf n.
Proof.
  intros H. rewrite toString_nonneg by lia. unfold padStart.
  pose proof (digitsOf_long n H) as Hl.
  destruct (Nat.leb_spec 2 (List.length (digitsOf n))); [reflexivity | lia].
Qed.

Lemma padStart_two_digits (r : Z) :
  0 <= r < 100 ->
  padStart 2 (lit "0") (toString r)
  = [digitChar (r / 10); digitChar (r mod 10)].
Proof.
  intros H. destruct (Z_lt_le_dec r 10) as [Hlt|Hge].
  - rewrite padStart_small, digitsOf_small by lia.
    rewrite Z.div_small, Z.mod_small by lia. reflexivity.
  - rewrite padStart_long, digitsOf_two by lia. reflexivity.
Qed.

(** The display of a time that is not negative: the minutes, a colon
    and the two digits of the seconds. *)
Lemma formatTime_form (s : Z) :
  0 <= s ->
  formatTime s
  = ((padStart 2 (lit "0") (toString (s / 60)) ++ [58%N])
     ++ [digitChar (s mod 60 / 10)]) ++ [digitChar (s mod 60 mod 10)].
Proof.
  intros H. unfold formatTime.
  rewrite Z.rem_mod_nonneg by lia.
  rewrite (padStart_two_digits (s mod 60))
    by (pose proof (Z.mod_pos_bound s 60); lia).
  rewrite <- !app_assoc. reflexivity.
Qed.

(** X14.  A time below 100 minutes is shown as MM:SS: for
    [0 <= seconds < 6000] the display has exactly five code units, two
    digits of minutes, a colon and two digits of seconds. *)
Theorem X14_formatTime_mm_ss (s : Z) :
  0 <= s < 6000 ->
  formatTime s
  = [digitChar (s / 600); digitChar (s / 60 mod 10); 58%N;
     digitChar (s mod 60 / 10); digitChar (s mod 60 mod 10)].
Proof.
  intros H. rewrite formatTime_form by lia.
  rewrite padStart_two_digits.
  - rewrite Z.div_div by lia. reflexivity.
  - split; [apply Z.div_pos; lia | apply Z.div_lt_upper_bound; lia].
Qed.

Lemma X14_formatTime_mm_ss_witness : formatTime 1499 = lit "24:59".
Proof. rewrite X14_formatTime_mm_ss by lia. reflexivity. Defined.

Lemma digitsOf_head_not_x (n : Z) (rest : jsstring) :
  0 <= n ->
  match digitsOf n ++ rest with
  | [] => True
  | x :: _ => N.eqb x 120 = false /\ N.eqb x 88 = false
  end.
Proof.
  intros H. destruct (digitsOf_digits n H) as [Hall Hne].
  destruct (digitsOf n); [congruence|]. simpl.
  inversion Hall; subst. now apply isDigitChar_not_x.
Qed.

(** The minutes can be read back from the display. *)
Lemma parseInt_padded (n : Z) (rest : jsstring) :
  0 <= n -> endsNumber rest = true ->
  Number.parseInt (padStart 2 (lit "0") (toString n) ++ rest) = Some n.
Proof.
  intros H Hrest. destruct (Z_lt_le_dec n 10) as [Hlt|Hge].
  - rewrite padStart_small by lia. simpl app.
    rewrite (proj1 (parseInt_digit_head 0 (digitsOf n ++ rest)
                      ltac:(lia) (digitsOf_head_not_x n rest H))).
    change (Number.parseDigits 10 (digitChar 0 :: digitsOf n ++ rest) None)
      with (Number.parseDigits 10 (digitsOf n ++ rest) (Some 0)).
    rewrite parseDigits_digitsOf by auto.
    apply parseDigits_end, Hrest.
  - rewrite padStart_long by lia.
    apply (parseInt_digits n rest H Hrest).
Qed.

Lemma two_digits_inj (r r' : Z) :
  0 <= r < 100 -> 0 <= r' < 100 ->
  digitChar (r / 10) = digitChar (r' / 10) ->
  digitChar (r mod 10) = digitChar (r' mod 10) ->
  r = r'.
Proof.
  intros H H' Hq Hm.
  apply digitChar_inj in Hq;
    try (split; [apply Z.div_pos; lia | apply Z.div_lt_upper_bound; lia]).
  apply digitChar_inj in Hm; try (apply Z.mod_pos_bound; lia).
  pose proof (Z.div_mod r 10). pose proof (Z.div_mod r' 10). lia.
Qed.

(** X15.  The clock never shows two different times alike: on times
    that are not negative, [formatTime] is injective. *)
Theorem X15_formatTime_injective (a b : Z) :
  0 <= a -> 0 <= b -> formatTime a = formatTime b -> a = b.
Proof.
  intros Ha Hb Heq.
  assert (Hmin : a / 60 = b / 60).
  { assert (Hp : forall s, 0 <= s ->
              Number.parseInt (formatTime s) = Some (s / 60)).
    { intros s Hs. rewrite formatTime_form, <- !app_assoc by exact Hs.
      apply parseInt_padded; [apply Z.div_pos; lia | reflexivity]. }
    pose proof (Hp a Ha) as Hpa. rewrite Heq, (Hp b Hb) in Hpa.
    congruence. }
  rewrite !formatTime_form in Heq by assumption.
  apply app_inj_tail in Heq. destruct Heq as [Heq Hu].
  apply app_inj_tail in Heq. destruct Heq as [_ Ht].
  pose proof (Z.mod_pos_bound a 60 ltac:(lia)).
  pose proof (Z.mod_pos_bound b 60 ltac:(lia)).
  assert (Hsec : a mod 60 = b mod 60)
    by (apply two_digits_inj; auto; lia).
  pose proof (Z.div_mod a 60). pose proof (Z.div_mod b 60). lia.
Qed.

Lemma X15_formatTime_injective_witness :
  formatTime 6000 = formatTime 6000 /\ 6000 = 6000.
Proof.
  split; [reflexivity|].
  apply X15_formatTime_injective; [lia | lia | reflexivity].
Defined.

(** ** The display of completed minutes *)

Lemma formatMinutes_small (m : Z) :
  0 <= m < 60 -> formatMinutes m = digitsOf m ++ lit "m".
Proof.
  intros H. unfold formatMinutes.
  rewrite Z.div_small, Z.rem_small by lia. simpl.
  now rewrite toString_nonneg by lia.
Qed.

Lemma formatMinutes_large (m : Z) :
  60 <= m ->
  formatMinutes m
  = digitsOf (m / 60) ++ lit "h " ++ digitsOf (m mod 60) ++ lit "m".
Proof.
  intros H. unfold formatMinutes.
  assert (Hh : 1 <= m / 60) by (apply Z.div_le_lower_bound; lia).
  pose proof (Z.mod_pos_bound m 60 ltac:(lia)) as Hr.
  destruct (Z.ltb_spec 0 (m / 60)); [|lia].
  rewrite Z.rem_mod_nonneg by lia.
  now rewrite !toString_nonneg by lia.
Qed.

(** X16.  The ledger never shows two different amounts alike: on
    numbers of minutes that are not negative, [formatMinutes] is
    injective, across its two forms "Nm" and "Hh Nm". *)
Theorem X16_formatMinutes_injective (a b : Z) :
  0 <= a -> 0 <= b -> formatMinutes a = formatMinutes b -> a = b.
Proof.
  assert (Hsm : forall n, 0 <= n ->
            Number.parseInt (digitsOf n ++ lit "m") = Some n)
    by (intros n Hn; apply (parseInt_digits n _ Hn); reflexivity).
  assert (Hlg : forall n rest, 0 <= n ->
            Number.parseInt (digitsOf n ++ lit "h " ++ rest) = Some n)
    by (intros n rest Hn; apply (parseInt_digits n _ Hn); reflexivity).
  assert (Hmixed : forall x y, 0 <= x < 60 -> 60 <= y ->
            formatMinutes x = formatMinutes y -> False).
  { intros x y Hx Hy Heq.
    rewrite formatMinutes_small, formatMinutes_large in Heq by lia.
    pose proof (f_equal Number.parseInt Heq) as Hp.
    rewrite Hsm, Hlg in Hp by (try apply Z.div_pos; lia).
    injection Hp as Hp. rewrite <- Hp in Heq.
    apply app_inv_head in Heq. discriminate Heq. }
  intros Ha Hb Heq.
  destruct (Z_lt_le_dec a 60) as [Ha60|Ha60],
           (Z_lt_le_dec b 60) as [Hb60|Hb60].
  - rewrite !formatMinutes_small in Heq by lia.
    apply (f_equal Number.parseInt) in Heq.
    rewrite !Hsm in Heq by lia. congruence.
  - exfalso. apply (Hmixed a b); auto; lia.
  - exfalso. apply (Hmixed b a); auto; lia.
  - rewrite !formatMinutes_large in Heq by lia.
    pose proof (f_equal Number.parseInt Heq) as Hp.
    rewrite !Hlg in Hp by (apply Z.div_pos; lia).
    injection Hp as Hp. rewrite Hp in Heq.
    apply app_inv_head in Heq. apply app_inv_head in Heq.
    apply (f_equal Number.parseInt) in Heq.
    pose proof (Z.mod_pos_bound a 60 ltac:(lia)).
    pose proof (Z.mod_pos_bound b 60 ltac:(lia)).
    rewrite !Hsm in Heq by lia. injection Heq as Hr.
    pose proof (Z.div_mod a 60). pose proof (Z.div_mod b 60). lia.
Qed.

Lemma X16_formatMinutes_injective_witness :
  formatMinutes 125 = lit "2h 5m" /\ 125 = 125.
Proof.
  split; [reflexivity|].
  apply X16_formatMinutes_injective; [lia | lia | reflexivity].
Defined.

(** ** A running timer always completes *)

Lemma credits_app (es1 es2 : list Event) (s : State) :
  credits (es1 ++ es2) s = (credits es1 s + credits es2 (run es1 s))%nat.
Proof.
  revert s. induction es1 as [|e es1 IH]; intros s; simpl; [reflexivity|].
  rewrite IH. lia.
Qed.

Lemma credits_ticks_counting (s : State) (k : nat) :
  isRunning s = true -> Z.of_nat k < timeLeft s ->
  credits (repeat Tick k) s = 0%nat.
Proof.
  intros Hrun. induction k as [|k IH]; intros Hlt; [reflexivity|].
  rewrite repeat_snoc, credits_app, IH by lia.
  rewrite run_ticks_counting by (auto; lia). simpl.
  rewrite tickC_counting;
    [ reflexivity
    | apply armed_iff; simpl; split; [exact Hrun | lia]
    | simpl; lia ].
Qed.

(** X17.  A running timer with [n] seconds left, [0 < n <= 2^53],
    resumed or fresh, completes after exactly [n] more ticks: before the
    [n]-th tick no credit is issued and the timer keeps running, the
    [n]-th tick stops it at zero, marks it complete and issues exactly
    one credit, and at each of these ticks the new [timeLeft] is the
    value the updater of the component returns in binary64. *)
Theorem X17_running_timer_completes (s : State) :
  isRunning s = true -> 0 < timeLeft s <= 2 ^ 53 ->
  let n := Z.to_nat (timeLeft s) in
  let s' := run (repeat Tick n) s in
  (forall k : nat, (k < n)%nat ->
     run (repeat Tick k) s = setTimeLeft (timeLeft s - Z.of_nat k) s
     /\ credits (repeat Tick k) s = 0%nat
     /\ nextTimeLeft64
          (Binary64.Finite (timeLeft (run (repeat Tick k) s)))
        = Binary64.Finite (timeLeft (run (repeat Tick (S k)) s)))
  /\ timeLeft s' = 0 /\ isRunning s' = false /\ isComplete s' = true
  /\ credits (repeat Tick n) s = 1%nat.
Proof.
  intros Hrun [Hpos Hb] n s'.
  assert (Hk : forall k : nat, (k < n)%nat ->
            run (repeat Tick k) s = setTimeLeft (timeLeft s - Z.of_nat k) s
            /\ credits (repeat Tick k) s = 0%nat).
  { intros k Hlt. split;
      [apply run_ticks_counting | apply credits_ticks_counting]; auto; lia. }
  split.
  { intros k Hlt. destruct (Hk k Hlt) as [Hr Hc].
    split; [exact Hr | split; [exact Hc|]].
    rewrite run_ticks_S. apply tick_agrees_binary64; rewrite Hr.
    - apply armed_iff. simpl. split; [exact Hrun | lia].
    - simpl. lia. }
  assert (Hn : n = S (Nat.pred n)) by lia.
  destruct (Hk (Nat.pred n) ltac:(lia)) as [Hr Hc].
  assert (Hterm : terminal (run (repeat Tick (Nat.pred n)) s)).
  { rewrite Hr. split; [apply armed_iff; simpl; split; [exact Hrun|]|];
      simpl; lia. }
  subst s'. rewrite Hn, run_ticks_S, repeat_snoc, credits_app, Hc.
  unfold tick. simpl. rewrite tickC_terminal by exact Hterm.
  repeat split.
Qed.

Lemma X17_running_timer_completes_witness :
  let s := run [Start; Tick; Tick; Pause; Start] init in
  credits (repeat Tick 1498) s = 1%nat.
Proof.
  intro s.
  assert (Hr : isRunning s = true) by reflexivity.
  assert (Hp : 0 < timeLeft s <= 2 ^ 53)
    by (split; vm_compute; [reflexivity | discriminate]).
  exact (proj2 (proj2 (proj2 (proj2
           (X17_running_timer_completes s Hr Hp))))).
Defined.
